(** * Silkworm monitor: the ingestion and retention pipeline of [src/app.py]

    The development embeds the Flask application of [src/app.py]:
    the health classifier [check_health], the retention sweep
    [cleanup_data], and the three views [history], [receive_data] and
    [get_latest], over a model of the Python values they handle, of the
    SQLAlchemy session they share and of the table [SensorData].

    Python is dynamically typed and the views fail dynamically
    (exceptions, unbound names), so values are a tagged union [pyval],
    fallible code returns [result], and the views run in a state and
    exception monad [M] over the request context.  Floats are the
    kernel's binary64 numbers, which are Python's. *)

From Stdlib Require Import ZArith Lia Ascii String.
From Stdlib Require Import Floats.PrimFloat Floats.SpecFloat Floats.FloatOps
  Floats.FloatAxioms.
From Stdlib Require Uint63.
From stdpp Require Import base option list sorting gmap strings.

Set Warnings "-register-all,-inexact-float".
Set Default Proof Using "Type".
Open Scope string_scope.
Open Scope Z_scope.

(** ** Python values *)

(** A naive [datetime.datetime]: microseconds on the proleptic
    Gregorian time line, counted from 1970-01-01 00:00:00, without time
    zone.  A [timedelta] is a number of microseconds. *)
Definition datetime : Type := Z.
Definition timedelta_t : Type := Z.

(** The values a request body, a local variable or a column can hold;
    [VObject] stands for the module's functions, classes and imports,
    known by name only. *)
Inductive pyval : Type :=
  | VNone
  | VBool (b : bool)
  | VInt (z : Z)
  | VFloat (f : float)
  | VStr (s : string)
  | VList (l : list pyval)
  | VDict (d : gmap string pyval)
  | VDatetime (t : datetime)
  | VObject (name : string).

(** The exceptions the code can meet, each with the text of [str(e)].
    All of them derive from [Exception]. *)
Inductive exn : Type :=
  | TypeError (msg : string)
  | ValueError (msg : string)
  | OverflowError (msg : string)
  | AttributeError (msg : string)
  | NameError (msg : string)
  | OperationalError (msg : string).

Definition exn_str (e : exn) : string :=
  match e with
  | TypeError m | ValueError m | OverflowError m
  | AttributeError m | NameError m | OperationalError m => m
  end.

(** A computation that returns or raises. *)
Definition result (A : Type) : Type := exn + A.
Definition Ok {A} (a : A) : result A := inr a.
Definition Raise {A} (e : exn) : result A := inl e.

Definition rbind {A B} (r : result A) (k : A -> result B) : result B :=
  match r with
  | inl e => inl e
  | inr a => k a
  end.

Definition type_name (v : pyval) : string :=
  match v with
  | VNone => "NoneType"
  | VBool _ => "bool"
  | VInt _ => "int"
  | VFloat _ => "float"
  | VStr _ => "str"
  | VList _ => "list"
  | VDict _ => "dict"
  | VDatetime _ => "datetime.datetime"
  | VObject _ => "object"
  end.

(** Truth value testing, as [not data] uses it: [None], [False], zero of
    either numeric type, and the empty string, list and dict are false. *)
Definition truthy (v : pyval) : bool :=
  match v with
  | VNone => false
  | VBool b => b
  | VInt z => negb (z =? 0)
  | VFloat f => negb (PrimFloat.eqb f 0)
  | VStr s => negb (String.eqb s "")
  | VList l => match l with [] => false | _ => true end
  | VDict d => negb (bool_decide (d = ∅))
  | VDatetime _ | VObject _ => true
  end.

(** [data.get(key, default)]: only a dict has the method. *)
Definition py_get (data : pyval) (key : string) (default : pyval) : result pyval :=
  match data with
  | VDict d => Ok (from_option id default (d !! key))
  | _ => Raise (AttributeError
                  ("'" +:+ type_name data +:+ "' object has no attribute 'get'"))
  end.

(** ** The builtin [float] *)

Module PyFloat.

(** [float(n)] for an int: the nearest binary64, ties to even;
    [OverflowError] beyond the range. *)
Definition of_Z (z : Z) : float :=
  SF2Prim (binary_normalize prec emax z 0 false).

Definition of_int (z : Z) : result float :=
  let f := of_Z z in
  if PrimFloat.eqb (PrimFloat.abs f) infinity
  then Raise (OverflowError "int too large to convert to float")
  else Ok f.

(** [m * 10^e] rounded to the nearest binary64, ties to even.  For a
    negative [e] the quotient is computed with more bits than any
    rounding needs, and a sticky bit records an inexact division.
    Magnitudes beyond the binary64 range on either side are cut short
    before the power is computed. *)
Definition of_decimal (neg : bool) (m : Z) (e : Z) : float :=
  let sgn (x : Z) := if neg then - x else x in
  if m =? 0 then (if neg then neg_zero else zero)
  else if 310 <=? Z.log2 m / 4 + e then (if neg then neg_infinity else infinity)
  else if Z.log2 m / 3 + 1 + e <? - 400 then (if neg then neg_zero else zero)
  else if 0 <=? e then
    SF2Prim (binary_normalize prec emax (sgn (m * 10 ^ e)) 0 neg)
  else
    let d := 10 ^ (- e) in
    let s := Z.log2 d + 1140 in
    let n := m * 2 ^ s in
    let q := n / d in
    let sticky := if n mod d =? 0 then 0 else 1 in
    SF2Prim (binary_normalize prec emax (sgn (2 * q + sticky)) (- (s + 1)) neg).

(** *** Strings as Python reads them

    A [str] is held as the bytes of its UTF-8 encoding.  [float] and
    [repr] work on code points: the tables below are those of Unicode
    14.0.0 (the decimal digits by the zero of each run of ten, the white
    space beyond ASCII, and the ranges beyond ASCII that [repr]
    escapes). *)

Definition byte (a : ascii) : Z := Z.of_N (N_of_ascii a).
Definition chr (n : Z) : ascii := ascii_of_N (Z.to_N n).

Definition decimal_zeros : list Z :=
  [1632; 1776; 1984; 2406; 2534; 2662; 2790; 2918; 3046; 3174; 3302; 3430;
   3558; 3664; 3792; 3872; 4160; 4240; 6112; 6160; 6470; 6608; 6784; 6800;
   6992; 7088; 7232; 7248; 42528; 43216; 43264; 43472; 43504; 43600; 44016;
   65296; 66720; 68912; 69734; 69872; 69942; 70096; 70384; 70736; 70864;
   71248; 71360; 71472; 71904; 72016; 72784; 73040; 73120; 92768; 92864;
   93008; 120782; 120792; 120802; 120812; 120822; 123200; 123632; 125264;
   130032].

Definition unicode_spaces : list Z :=
  [133; 160; 5760; 8192; 8193; 8194; 8195; 8196; 8197; 8198; 8199; 8200;
   8201; 8202; 8232; 8233; 8239; 8287; 12288].

Definition not_printable : list (Z * Z) :=
  [(128, 160); (173, 173); (888, 889); (896, 899); (907, 907); (909, 909);
   (930, 930); (1328, 1328); (1367, 1368); (1419, 1420); (1424, 1424);
   (1480, 1487); (1515, 1518); (1525, 1541); (1564, 1564); (1757, 1757);
   (1806, 1807); (1867, 1868); (1970, 1983); (2043, 2044); (2094, 2095);
   (2111, 2111); (2140, 2141); (2143, 2143); (2155, 2159); (2191, 2199);
   (2274, 2274); (2436, 2436); (2445, 2446); (2449, 2450); (2473, 2473);
   (2481, 2481); (2483, 2485); (2490, 2491); (2501, 2502); (2505, 2506);
   (2511, 2518); (2520, 2523); (2526, 2526); (2532, 2533); (2559, 2560);
   (2564, 2564); (2571, 2574); (2577, 2578); (2601, 2601); (2609, 2609);
   (2612, 2612); (2615, 2615); (2618, 2619); (2621, 2621); (2627, 2630);
   (2633, 2634); (2638, 2640); (2642, 2648); (2653, 2653); (2655, 2661);
   (2679, 2688); (2692, 2692); (2702, 2702); (2706, 2706); (2729, 2729);
   (2737, 2737); (2740, 2740); (2746, 2747); (2758, 2758); (2762, 2762);
   (2766, 2767); (2769, 2783); (2788, 2789); (2802, 2808); (2816, 2816);
   (2820, 2820); (2829, 2830); (2833, 2834); (2857, 2857); (2865, 2865);
   (2868, 2868); (2874, 2875); (2885, 2886); (2889, 2890); (2894, 2900);
   (2904, 2907); (2910, 2910); (2916, 2917); (2936, 2945); (2948, 2948);
   (2955, 2957); (2961, 2961); (2966, 2968); (2971, 2971); (2973, 2973);
   (2976, 2978); (2981, 2983); (2987, 2989); (3002, 3005); (3011, 3013);
   (3017, 3017); (3022, 3023); (3025, 3030); (3032, 3045); (3067, 3071);
   (3085, 3085); (3089, 3089); (3113, 3113); (3130, 3131); (3141, 3141);
   (3145, 3145); (3150, 3156); (3159, 3159); (3163, 3164); (3166, 3167);
   (3172, 3173); (3184, 3190); (3213, 3213); (3217, 3217); (3241, 3241);
   (3252, 3252); (3258, 3259); (3269, 3269); (3273, 3273); (3278, 3284);
   (3287, 3292); (3295, 3295); (3300, 3301); (3312, 3312); (3315, 3327);
   (3341, 3341); (3345, 3345); (3397, 3397); (3401, 3401); (3408, 3411);
   (3428, 3429); (3456, 3456); (3460, 3460); (3479, 3481); (3506, 3506);
   (3516, 3516); (3518, 3519); (3527, 3529); (3531, 3534); (3541, 3541);
   (3543, 3543); (3552, 3557); (3568, 3569); (3573, 3584); (3643, 3646);
   (3676, 3712); (3715, 3715); (3717, 3717); (3723, 3723); (3748, 3748);
   (3750, 3750); (3774, 3775); (3781, 3781); (3783, 3783); (3790, 3791);
   (3802, 3803); (3808, 3839); (3912, 3912); (3949, 3952); (3992, 3992);
   (4029, 4029); (4045, 4045); (4059, 4095); (4294, 4294); (4296, 4300);
   (4302, 4303); (4681, 4681); (4686, 4687); (4695, 4695); (4697, 4697);
   (4702, 4703); (4745, 4745); (4750, 4751); (4785, 4785); (4790, 4791);
   (4799, 4799); (4801, 4801); (4806, 4807); (4823, 4823); (4881, 4881);
   (4886, 4887); (4955, 4956); (4989, 4991); (5018, 5023); (5110, 5111);
   (5118, 5119); (5760, 5760); (5789, 5791); (5881, 5887); (5910, 5918);
   (5943, 5951); (5972, 5983); (5997, 5997); (6001, 6001); (6004, 6015);
   (6110, 6111); (6122, 6127); (6138, 6143); (6158, 6158); (6170, 6175);
   (6265, 6271); (6315, 6319); (6390, 6399); (6431, 6431); (6444, 6447);
   (6460, 6463); (6465, 6467); (6510, 6511); (6517, 6527); (6572, 6575);
   (6602, 6607); (6619, 6621); (6684, 6685); (6751, 6751); (6781, 6782);
   (6794, 6799); (6810, 6815); (6830, 6831); (6863, 6911); (6989, 6991);
   (7039, 7039); (7156, 7163); (7224, 7226); (7242, 7244); (7305, 7311);
   (7355, 7356); (7368, 7375); (7419, 7423); (7958, 7959); (7966, 7967);
   (8006, 8007); (8014, 8015); (8024, 8024); (8026, 8026); (8028, 8028);
   (8030, 8030); (8062, 8063); (8117, 8117); (8133, 8133); (8148, 8149);
   (8156, 8156); (8176, 8177); (8181, 8181); (8191, 8207); (8232, 8239);
   (8287, 8303); (8306, 8307); (8335, 8335); (8349, 8351); (8385, 8399);
   (8433, 8447); (8588, 8591); (9255, 9279); (9291, 9311); (11124, 11125);
   (11158, 11158); (11508, 11512); (11558, 11558); (11560, 11564);
   (11566, 11567); (11624, 11630); (11633, 11646); (11671, 11679);
   (11687, 11687); (11695, 11695); (11703, 11703); (11711, 11711);
   (11719, 11719); (11727, 11727); (11735, 11735); (11743, 11743);
   (11870, 11903); (11930, 11930); (12020, 12031); (12246, 12271);
   (12284, 12288); (12352, 12352); (12439, 12440); (12544, 12548);
   (12592, 12592); (12687, 12687); (12772, 12783); (12831, 12831);
   (42125, 42127); (42183, 42191); (42540, 42559); (42744, 42751);
   (42955, 42959); (42962, 42962); (42964, 42964); (42970, 42993);
   (43053, 43055); (43066, 43071); (43128, 43135); (43206, 43213);
   (43226, 43231); (43348, 43358); (43389, 43391); (43470, 43470);
   (43482, 43485); (43519, 43519); (43575, 43583); (43598, 43599);
   (43610, 43611); (43715, 43738); (43767, 43776); (43783, 43784);
   (43791, 43792); (43799, 43807); (43815, 43815); (43823, 43823);
   (43884, 43887); (44014, 44015); (44026, 44031); (55204, 55215);
   (55239, 55242); (55292, 63743); (64110, 64111); (64218, 64255);
   (64263, 64274); (64280, 64284); (64311, 64311); (64317, 64317);
   (64319, 64319); (64322, 64322); (64325, 64325); (64451, 64466);
   (64912, 64913); (64968, 64974); (64976, 65007); (65050, 65055);
   (65107, 65107); (65127, 65127); (65132, 65135); (65141, 65141);
   (65277, 65280); (65471, 65473); (65480, 65481); (65488, 65489);
   (65496, 65497); (65501, 65503); (65511, 65511); (65519, 65531);
   (65534, 65535); (65548, 65548); (65575, 65575); (65595, 65595);
   (65598, 65598); (65614, 65615); (65630, 65663); (65787, 65791);
   (65795, 65798); (65844, 65846); (65935, 65935); (65949, 65951);
   (65953, 65999); (66046, 66175); (66205, 66207); (66257, 66271);
   (66300, 66303); (66340, 66348); (66379, 66383); (66427, 66431);
   (66462, 66462); (66500, 66503); (66518, 66559); (66718, 66719);
   (66730, 66735); (66772, 66775); (66812, 66815); (66856, 66863);
   (66916, 66926); (66939, 66939); (66955, 66955); (66963, 66963);
   (66966, 66966); (66978, 66978); (66994, 66994); (67002, 67002);
   (67005, 67071); (67383, 67391); (67414, 67423); (67432, 67455);
   (67462, 67462); (67505, 67505); (67515, 67583); (67590, 67591);
   (67593, 67593); (67638, 67638); (67641, 67643); (67645, 67646);
   (67670, 67670); (67743, 67750); (67760, 67807); (67827, 67827);
   (67830, 67834); (67868, 67870); (67898, 67902); (67904, 67967);
   (68024, 68027); (68048, 68049); (68100, 68100); (68103, 68107);
   (68116, 68116); (68120, 68120); (68150, 68151); (68155, 68158);
   (68169, 68175); (68185, 68191); (68256, 68287); (68327, 68330);
   (68343, 68351); (68406, 68408); (68438, 68439); (68467, 68471);
   (68498, 68504); (68509, 68520); (68528, 68607); (68681, 68735);
   (68787, 68799); (68851, 68857); (68904, 68911); (68922, 69215);
   (69247, 69247); (69290, 69290); (69294, 69295); (69298, 69375);
   (69416, 69423); (69466, 69487); (69514, 69551); (69580, 69599);
   (69623, 69631); (69710, 69713); (69750, 69758); (69821, 69821);
   (69827, 69839); (69865, 69871); (69882, 69887); (69941, 69941);
   (69960, 69967); (70007, 70015); (70112, 70112); (70133, 70143);
   (70162, 70162); (70207, 70271); (70279, 70279); (70281, 70281);
   (70286, 70286); (70302, 70302); (70314, 70319); (70379, 70383);
   (70394, 70399); (70404, 70404); (70413, 70414); (70417, 70418);
   (70441, 70441); (70449, 70449); (70452, 70452); (70458, 70458);
   (70469, 70470); (70473, 70474); (70478, 70479); (70481, 70486);
   (70488, 70492); (70500, 70501); (70509, 70511); (70517, 70655);
   (70748, 70748); (70754, 70783); (70856, 70863); (70874, 71039);
   (71094, 71095); (71134, 71167); (71237, 71247); (71258, 71263);
   (71277, 71295); (71354, 71359); (71370, 71423); (71451, 71452);
   (71468, 71471); (71495, 71679); (71740, 71839); (71923, 71934);
   (71943, 71944); (71946, 71947); (71956, 71956); (71959, 71959);
   (71990, 71990); (71993, 71994); (72007, 72015); (72026, 72095);
   (72104, 72105); (72152, 72153); (72165, 72191); (72264, 72271);
   (72355, 72367); (72441, 72703); (72713, 72713); (72759, 72759);
   (72774, 72783); (72813, 72815); (72848, 72849); (72872, 72872);
   (72887, 72959); (72967, 72967); (72970, 72970); (73015, 73017);
   (73019, 73019); (73022, 73022); (73032, 73039); (73050, 73055);
   (73062, 73062); (73065, 73065); (73103, 73103); (73106, 73106);
   (73113, 73119); (73130, 73439); (73465, 73647); (73649, 73663);
   (73714, 73726); (74650, 74751); (74863, 74863); (74869, 74879);
   (75076, 77711); (77811, 77823); (78895, 82943); (83527, 92159);
   (92729, 92735); (92767, 92767); (92778, 92781); (92863, 92863);
   (92874, 92879); (92910, 92911); (92918, 92927); (92998, 93007);
   (93018, 93018); (93026, 93026); (93048, 93052); (93072, 93759);
   (93851, 93951); (94027, 94030); (94088, 94094); (94112, 94175);
   (94181, 94191); (94194, 94207); (100344, 100351); (101590, 101631);
   (101641, 110575); (110580, 110580); (110588, 110588); (110591, 110591);
   (110883, 110927); (110931, 110947); (110952, 110959); (111356, 113663);
   (113771, 113775); (113789, 113791); (113801, 113807); (113818, 113819);
   (113824, 118527); (118574, 118575); (118599, 118607); (118724, 118783);
   (119030, 119039); (119079, 119080); (119155, 119162); (119275, 119295);
   (119366, 119519); (119540, 119551); (119639, 119647); (119673, 119807);
   (119893, 119893); (119965, 119965); (119968, 119969); (119971, 119972);
   (119975, 119976); (119981, 119981); (119994, 119994); (119996, 119996);
   (120004, 120004); (120070, 120070); (120075, 120076); (120085, 120085);
   (120093, 120093); (120122, 120122); (120127, 120127); (120133, 120133);
   (120135, 120137); (120145, 120145); (120486, 120487); (120780, 120781);
   (121484, 121498); (121504, 121504); (121520, 122623); (122655, 122879);
   (122887, 122887); (122905, 122906); (122914, 122914); (122917, 122917);
   (122923, 123135); (123181, 123183); (123198, 123199); (123210, 123213);
   (123216, 123535); (123567, 123583); (123642, 123646); (123648, 124895);
   (124903, 124903); (124908, 124908); (124911, 124911); (124927, 124927);
   (125125, 125126); (125143, 125183); (125260, 125263); (125274, 125277);
   (125280, 126064); (126133, 126208); (126270, 126463); (126468, 126468);
   (126496, 126496); (126499, 126499); (126501, 126502); (126504, 126504);
   (126515, 126515); (126520, 126520); (126522, 126522); (126524, 126529);
   (126531, 126534); (126536, 126536); (126538, 126538); (126540, 126540);
   (126544, 126544); (126547, 126547); (126549, 126550); (126552, 126552);
   (126554, 126554); (126556, 126556); (126558, 126558); (126560, 126560);
   (126563, 126563); (126565, 126566); (126571, 126571); (126579, 126579);
   (126584, 126584); (126589, 126589); (126591, 126591); (126602, 126602);
   (126620, 126624); (126628, 126628); (126634, 126634); (126652, 126703);
   (126706, 126975); (127020, 127023); (127124, 127135); (127151, 127152);
   (127168, 127168); (127184, 127184); (127222, 127231); (127406, 127461);
   (127491, 127503); (127548, 127551); (127561, 127567); (127570, 127583);
   (127590, 127743); (128728, 128732); (128749, 128751); (128765, 128767);
   (128884, 128895); (128985, 128991); (129004, 129007); (129009, 129023);
   (129036, 129039); (129096, 129103); (129114, 129119); (129160, 129167);
   (129198, 129199); (129202, 129279); (129620, 129631); (129646, 129647);
   (129653, 129655); (129661, 129663); (129671, 129679); (129709, 129711);
   (129723, 129727); (129734, 129743); (129754, 129759); (129768, 129775);
   (129783, 129791); (129939, 129939); (129995, 130031); (130042, 131071);
   (173792, 173823); (177977, 177983); (178206, 178207); (183970, 183983);
   (191457, 194559); (195102, 196607); (201547, 917759); (918000, 1114111)].

(** The payload of a continuation byte. *)
Definition continuation (a : ascii) : option Z :=
  let b := byte a in
  if (128 <=? b) && (b <? 192) then Some (b - 128) else None.

(** The code points of a UTF-8 string; [None] for bytes that encode no
    [str] (stray or missing continuation bytes, overlong forms,
    surrogates, values beyond U+10FFFF). *)
Fixpoint utf8_decode (bs : list ascii) : option (list Z) :=
  match bs with
  | [] => Some []
  | b0 :: bs1 =>
      let n0 := byte b0 in
      if n0 <? 128 then
        match utf8_decode bs1 with Some r => Some (n0 :: r) | None => None end
      else if n0 <? 192 then None
      else if n0 <? 224 then
        match bs1 with
        | b1 :: bs2 =>
            match continuation b1, utf8_decode bs2 with
            | Some c1, Some r =>
                let cp := (n0 - 192) * 64 + c1 in
                if 128 <=? cp then Some (cp :: r) else None
            | _, _ => None
            end
        | _ => None
        end
      else if n0 <? 240 then
        match bs1 with
        | b1 :: b2 :: bs3 =>
            match continuation b1, continuation b2, utf8_decode bs3 with
            | Some c1, Some c2, Some r =>
                let cp := (n0 - 224) * 4096 + c1 * 64 + c2 in
                if (2048 <=? cp) && negb ((55296 <=? cp) && (cp <=? 57343))
                then Some (cp :: r) else None
            | _, _, _ => None
            end
        | _ => None
        end
      else if n0 <? 248 then
        match bs1 with
        | b1 :: b2 :: b3 :: bs4 =>
            match continuation b1, continuation b2, continuation b3,
                  utf8_decode bs4 with
            | Some c1, Some c2, Some c3, Some r =>
                let cp := (n0 - 240) * 262144 + c1 * 4096 + c2 * 64 + c3 in
                if (65536 <=? cp) && (cp <=? 1114111) then Some (cp :: r) else None
            | _, _, _, _ => None
            end
        | _ => None
        end
      else None
  end.

Definition utf8_encode (cp : Z) : list ascii :=
  if cp <? 128 then [chr cp]
  else if cp <? 2048 then [chr (192 + cp / 64); chr (128 + cp mod 64)]
  else if cp <? 65536 then
    [chr (224 + cp / 4096); chr (128 + cp / 64 mod 64); chr (128 + cp mod 64)]
  else
    [chr (240 + cp / 262144); chr (128 + cp / 4096 mod 64);
     chr (128 + cp / 64 mod 64); chr (128 + cp mod 64)].

(** The value of a decimal digit of any script. *)
Definition decimal_value (cp : Z) : option Z :=
  if (48 <=? cp) && (cp <=? 57) then Some (cp - 48)
  else
    match filter (fun z => z <= cp <= z + 9) decimal_zeros with
    | z :: _ => Some (cp - z)
    | [] => None
    end.

(** What [float] makes of a character before it parses: the characters
    below 127 stay, white space beyond becomes a space, a decimal digit
    of any script becomes the ASCII digit, and anything else a question
    mark, which no number holds. *)
Definition to_ascii (cp : Z) : ascii :=
  if cp <? 127 then chr cp
  else if bool_decide (cp ∈ unicode_spaces) then chr 32
  else
    match decimal_value cp with
    | Some d => chr (48 + d)
    | None => chr 63
    end.

Definition hex_digit (n : Z) : ascii :=
  if n <? 10 then chr (48 + n) else chr (87 + n).

Fixpoint hex (width : nat) (n : Z) : list ascii :=
  match width with
  | O => []
  | S w => (hex w (n / 16) ++ [hex_digit (n mod 16)])%list
  end.

Definition printable (cp : Z) : bool :=
  if cp <? 128 then (32 <=? cp) && (cp <? 127)
  else negb (bool_decide (Exists (fun r => r.1 <= cp <= r.2) not_printable)).

(** One character of [repr(s)] between the quotes [q]. *)
Definition escape (q : Z) (cp : Z) : list ascii :=
  if (cp =? q) || (cp =? 92) then [chr 92; chr cp]
  else if cp =? 9 then [chr 92; chr 116]
  else if cp =? 10 then [chr 92; chr 110]
  else if cp =? 13 then [chr 92; chr 114]
  else if printable cp then utf8_encode cp
  else if cp <=? 255 then (chr 92 :: chr 120 :: hex 2 cp)%list
  else if cp <=? 65535 then (chr 92 :: chr 117 :: hex 4 cp)%list
  else (chr 92 :: chr 85 :: hex 8 cp)%list.

(** [repr(s)]: single quotes, double quotes when the string holds a
    single quote and no double quote.  Bytes that encode no [str] are
    returned as they are. *)
Definition repr (s : string) : string :=
  match utf8_decode (list_ascii_of_string s) with
  | None => s
  | Some cps =>
      let q := if bool_decide (39 ∈ cps) && negb (bool_decide (34 ∈ cps))
               then 34 else 39 in
      string_of_list_ascii
        (chr q :: concat (map (escape q) cps) ++ [chr q])%list
  end.

(** *** The grammar of [float] on the ASCII text *)

Definition is_space (a : ascii) : bool :=
  let n := N_of_ascii a in
  ((n =? 32) || ((9 <=? n) && (n <=? 13)))%N.

Definition is_digit (a : ascii) : bool :=
  let n := N_of_ascii a in ((48 <=? n) && (n <=? 57))%N.

Definition digit_val (a : ascii) : Z := Z.of_N (N_of_ascii a) - 48.

Definition lower (a : ascii) : ascii :=
  let n := N_of_ascii a in
  if ((65 <=? n) && (n <=? 90))%N then ascii_of_N (n + 32) else a.

Fixpoint lstrip (cs : list ascii) : list ascii :=
  match cs with
  | c :: cs' => if is_space c then lstrip cs' else cs
  | [] => []
  end.

Definition strip (cs : list ascii) : list ascii :=
  rev (lstrip (rev (lstrip cs))).

(** A digit part: digits, single underscores allowed between two
    digits.  Returns the digits read, most significant first, and the
    rest of the input; [after_digit] tells whether a digit was just
    read. *)
Fixpoint digitpart (after_digit : bool) (cs : list ascii) : list Z * list ascii :=
  match cs with
  | c :: cs' =>
      if is_digit c then
        let '(ds, r) := digitpart true cs' in (digit_val c :: ds, r)
      else if after_digit && Ascii.eqb c "_" then
        match cs' with
        | c' :: _ => if is_digit c' then digitpart false cs' else ([], cs)
        | [] => ([], cs)
        end
      else ([], cs)
  | [] => ([], [])
  end.

Definition digits_val (ds : list Z) : Z :=
  fold_left (fun acc d => 10 * acc + d) ds 0.

Definition sign (cs : list ascii) : bool * list ascii :=
  match cs with
  | c :: cs' =>
      if Ascii.eqb c "-" then (true, cs')
      else if Ascii.eqb c "+" then (false, cs')
      else (false, cs)
  | [] => (false, [])
  end.

(** The exponent part: empty, or [e] or [E], a sign, a digit part;
    nothing may follow. *)
Definition exponent (cs : list ascii) : option Z :=
  match cs with
  | [] => Some 0
  | c :: cs' =>
      if Ascii.eqb (lower c) "e" then
        let '(neg, cs1) := sign cs' in
        match digitpart false cs1 with
        | ((_ :: _) as ds, []) =>
            Some (if neg then - digits_val ds else digits_val ds)
        | _ => None
        end
      else None
  end.

(** The ASCII text of a float: surrounding white space, a sign, then
    [inf], [infinity] or [nan] in any case, or a decimal number with
    at least one digit. *)
Definition parse_ascii (text : list ascii) : option float :=
  let '(neg, cs) := sign (strip text) in
  let word := string_of_list_ascii (map lower cs) in
  if String.eqb word "inf" || String.eqb word "infinity"
  then Some (if neg then neg_infinity else infinity)
  else if String.eqb word "nan" then Some nan
  else
    let '(ip, cs1) := digitpart false cs in
    let '(fp, cs2) :=
      match cs1 with
      | c :: cs1' => if Ascii.eqb c "." then digitpart false cs1' else ([], cs1)
      | [] => ([], [])
      end in
    match (ip ++ fp)%list with
    | [] => None
    | ds =>
        e ← exponent cs2;
        Some (of_decimal neg (digits_val ds) (e - Z.of_nat (length fp)))
    end.

(** [float(s)] for a str; [None] is [ValueError]. *)
Definition parse (s : string) : option float :=
  match utf8_decode (list_ascii_of_string s) with
  | Some cps => parse_ascii (map to_ascii cps)
  | None => None
  end.

Definition of_str (s : string) : result float :=
  match parse s with
  | Some f => Ok f
  | None => Raise (ValueError ("could not convert string to float: " +:+ repr s))
  end.

End PyFloat.

(** [float(x)].  [bool] is a subclass of [int]. *)
Definition py_float (v : pyval) : result float :=
  match v with
  | VFloat f => Ok f
  | VInt z => PyFloat.of_int z
  | VBool b => Ok (if b then 1%float else 0%float)
  | VStr s => PyFloat.of_str s
  | _ => Raise (TypeError
                  ("float() argument must be a string or a real number, not '"
                   +:+ type_name v +:+ "'"))
  end.

(** ** [datetime] and [timedelta] *)

Definition timedelta (days hours minutes : Z) : timedelta_t :=
  ((days * 24 + hours) * 60 + minutes) * 60 * 1000000.

(** Calendar date [(year, month, day)] of a day number counted from
    1970-01-01, in the proleptic Gregorian calendar. *)
Definition civil_from_days (days : Z) : Z * Z * Z :=
  let z := days + 719468 in
  let era := z / 146097 in
  let doe := z - era * 146097 in
  let yoe := (doe - doe / 1460 + doe / 36524 - doe / 146096) / 365 in
  let doy := doe - (365 * yoe + yoe / 4 - yoe / 100) in
  let mp := (5 * doy + 2) / 153 in
  let d := doy - (153 * mp + 2) / 5 + 1 in
  let m := if mp <? 10 then mp + 3 else mp - 9 in
  let y := yoe + era * 400 in
  (if m <=? 2 then y + 1 else y, m, d).

Definition digit_char (n : Z) : ascii := ascii_of_N (Z.to_N (n mod 10) + 48).

Definition pad2 (n : Z) : string :=
  String (digit_char (n / 10)) (String (digit_char n) "").

(** [%Y] as the C library prints it: the year in decimal, without
    padding, for the years 1 to 9999 of [datetime]. *)
Definition year_digits (y : Z) : string :=
  if y <? 10 then String (digit_char y) ""
  else if y <? 100 then pad2 y
  else if y <? 1000 then String (digit_char (y / 100)) (pad2 (y mod 100))
  else pad2 (y / 100) +:+ pad2 (y mod 100).

(** Whole seconds of a datetime: [strftime] with second fields drops the
    microseconds. *)
Definition whole_seconds (t : datetime) : Z := t / 1000000.

(** [t.strftime("%Y-%m-%d %H:%M:%S")]. *)
Definition strftime (t : datetime) : string :=
  let s := whole_seconds t in
  let '(y, m, d) := civil_from_days (s / 86400) in
  let sod := s mod 86400 in
  year_digits y +:+ "-" +:+ pad2 m +:+ "-" +:+ pad2 d +:+ " "
  +:+ pad2 (sod / 3600) +:+ ":" +:+ pad2 (sod / 60 mod 60) +:+ ":" +:+ pad2 (sod mod 60).

(** ** The table and the session *)

(** A row of the table [sensor_data], without its primary key: the
    table maps each [id] to the other columns.  No column is declared
    [nullable=False]: [None] is SQL [NULL]. *)
Record SensorData : Type := mkSensorData {
  temperature : option float;
  humidity : option float;
  soil_moisture : option float;
  gas_value : option float;
  ldr_value : option float;
  timestamp : option datetime
}.

(** The mapped attributes of the class. *)
Definition columns : list string :=
  ["id"; "temperature"; "humidity"; "soil_moisture"; "gas_value"; "ldr_value";
   "timestamp"].

(** A [SensorData] object that is not in the table yet: the attributes
    its constructor was given. *)
Definition instance : Type := gmap string pyval.

(** The declarative constructor: every keyword must be a mapped
    attribute. *)
Fixpoint SensorData_init (kwargs : list (string * pyval)) (self : instance)
  : result instance :=
  match kwargs with
  | [] => Ok self
  | (k, v) :: rest =>
      if bool_decide (k ∈ columns) then SensorData_init rest (<[k := v]> self)
      else Raise (TypeError
                    ("'" +:+ k +:+ "' is an invalid keyword argument for SensorData"))
  end.

(** The statements sent to the database; each may fail in the storage
    layer. *)
Inductive stmt : Type := INSERT | DELETE | COMMIT.

(** What outlives a request: the committed table ([database.db]), the
    server clock (the successive answers of [datetime.now()]) and the
    number of answers given so far, which statements the storage layer
    fails and with which error text, the unused id SQLite finds at
    random once the largest one is taken ([None] when it gives up), and
    the standard output. *)
Record world : Type := mkWorld {
  table : gmap Z SensorData;
  clock : nat -> datetime;
  ticks : nat;
  failing : stmt -> bool;
  fault_text : stmt -> string;
  spare_rowid : option Z;
  stdout : list string
}.

(** The context of one request: the world, the table as the session's
    open transaction sees it, and the objects added but not flushed. *)
Record ctx : Type := mkCtx {
  wd : world;
  txn : gmap Z SensorData;
  pending : list instance
}.

(** State and exception monad of a request; the state persists when an
    exception passes. *)
Definition M (A : Type) : Type := ctx -> result A * ctx.

#[global] Instance M_ret : MRet M := fun A a c => (Ok a, c).
#[global] Instance M_bind : MBind M := fun A B k m c =>
  match m c with
  | (inl e, c') => (inl e, c')
  | (inr a, c') => k a c'
  end.

Definition lift {A} (r : result A) : M A := fun c => (r, c).
Definition raise {A} (e : exn) : M A := lift (Raise e).

(** [try: body except Exception as e: handler e]. *)
Definition try_except {A} (body : M A) (handler : exn -> M A) : M A := fun c =>
  match body c with
  | (inl e, c') => handler e c'
  | r => r
  end.

Definition set_txn (t : gmap Z SensorData) : M unit := fun c =>
  (Ok tt, mkCtx (wd c) t (pending c)).
Definition get_txn : M (gmap Z SensorData) := fun c => (Ok (txn c), c).

(** [datetime.now()]. *)
Definition datetime_now : M datetime := fun c =>
  let w := wd c in
  (Ok (clock w (ticks w)),
   mkCtx (mkWorld (table w) (clock w) (S (ticks w)) (failing w) (fault_text w) (spare_rowid w) (stdout w))
         (txn c) (pending c)).

(** [print(s)]. *)
Definition print (s : string) : M unit := fun c =>
  let w := wd c in
  (Ok tt,
   mkCtx (mkWorld (table w) (clock w) (ticks w) (failing w) (fault_text w) (spare_rowid w) (stdout w ++ [s])%list)
         (txn c) (pending c)).

(** Sending a statement: the storage layer may refuse it. *)
Definition execute (s : stmt) : M unit := fun c =>
  if failing (wd c) s
  then (Raise (OperationalError (fault_text (wd c) s)), c)
  else (Ok tt, c).

(** [db.session.add(o)]. *)
Definition session_add (o : instance) : M unit := fun c =>
  (Ok tt, mkCtx (wd c) (txn c) (pending c ++ [o])%list).

(** The largest id of the table, if it has a row. *)
Definition max_id (t : gmap Z SensorData) : option Z :=
  foldr (fun k acc => Some (from_option (Z.max k) k acc)) None
        (fst <$> map_to_list t).

(** The largest id there is: ids are signed 64-bit integers. *)
Definition max_rowid : Z := 2 ^ 63 - 1.

(** The id SQLite gives a new row while the largest id is not taken:
    one more than the largest in the table, 1 in an empty table. *)
Definition next_id (t : gmap Z SensorData) : Z :=
  match max_id t with
  | Some m => m + 1
  | None => 1
  end.

(** The id of a new row.  Once the largest id is taken SQLite tries
    positive ids at random and fails the INSERT when it finds none
    unused. *)
Definition new_rowid : M Z := fun c =>
  let t := txn c in
  match max_id t with
  | Some m =>
      if m <? max_rowid then (Ok (m + 1), c)
      else
        match spare_rowid (wd c) with
        | Some i =>
            if (0 <? i) && (i <=? max_rowid) && bool_decide (t !! i = None)
            then (Ok i, c)
            else (Raise (OperationalError (fault_text (wd c) INSERT)), c)
        | None => (Raise (OperationalError (fault_text (wd c) INSERT)), c)
        end
  | None => (Ok 1, c)
  end.

(** What SQLite keeps of a float: NaN is stored as [NULL], and a float
    without fraction is stored as an integer, which loses the sign of
    zero. *)
Definition sql_real (f : float) : option float :=
  if PrimFloat.is_nan f then None
  else if PrimFloat.eqb f 0 then Some 0%float
  else Some f.

(** Binding a value to a [Float] column: [None] is [NULL], anything else
    goes through [float] and is stored as SQLite keeps it. *)
Definition bind_float (o : instance) (col : string) : result (option float) :=
  match o !! col with
  | None | Some VNone => Ok None
  | Some v => rbind (py_float v) (fun f => Ok (sql_real f))
  end.

(** The value of the [timestamp] column: an attribute that was never
    set, or set to [None], is left out of the INSERT and the column
    default [datetime.now] is called for it, before any value is
    bound. *)
Definition timestamp_value (o : instance) : M pyval :=
  match o !! "timestamp" with
  | None | Some VNone => now ← datetime_now; mret (VDatetime now)
  | Some v => mret v
  end.

(** Binding the [DateTime] column: SQLite's [DateTime] takes datetime
    objects only. *)
Definition bind_timestamp (v : pyval) : result (option datetime) :=
  match v with
  | VDatetime t => Ok (Some t)
  | _ =>
      Raise (TypeError
               "SQLite DateTime type only accepts Python datetime and date objects as input.")
  end.

(** The INSERT of one pending object: the default is computed, the
    values are bound in the order of the columns, the statement is
    sent, and the row gets its id. *)
Definition insert_row (o : instance) : M unit :=
  ts ← timestamp_value o;
  temperature ← lift (bind_float o "temperature");
  humidity ← lift (bind_float o "humidity");
  soil_moisture ← lift (bind_float o "soil_moisture");
  gas_value ← lift (bind_float o "gas_value");
  ldr_value ← lift (bind_float o "ldr_value");
  timestamp ← lift (bind_timestamp ts);
  _ ← execute INSERT;
  id ← new_rowid;
  t ← get_txn;
  set_txn (<[id :=
             mkSensorData temperature humidity soil_moisture gas_value ldr_value
                          timestamp]> t).

Fixpoint insert_rows (os : list instance) : M unit :=
  match os with
  | [] => mret tt
  | o :: os' => _ ← insert_row o; insert_rows os'
  end.

(** The session's flush: the pending objects are inserted, in the order
    they were added. *)
Definition flush : M unit := fun c =>
  insert_rows (pending c) (mkCtx (wd c) (txn c) []).

(** The transaction's table becomes the committed one. *)
Definition publish : M unit := fun c =>
  let w := wd c in
  (Ok tt,
   mkCtx (mkWorld (txn c) (clock w) (ticks w) (failing w) (fault_text w) (spare_rowid w) (stdout w))
         (txn c) (pending c)).

(** [db.session.commit()]. *)
Definition commit : M unit :=
  _ ← flush;
  _ ← execute COMMIT;
  publish.

(** A row is older than the cutoff; a [NULL] timestamp compares as
    unknown, which a [WHERE] clause rejects. *)
Definition older_than (cutoff : datetime) (r : SensorData) : bool :=
  match timestamp r with
  | Some t => t <? cutoff
  | None => false
  end.

(** The rows that [WHERE timestamp < cutoff] selects, and the others. *)
Definition matching (cutoff : datetime) (t : gmap Z SensorData) : gmap Z SensorData :=
  filter (fun kv => older_than cutoff kv.2 = true) t.
Definition remaining (cutoff : datetime) (t : gmap Z SensorData) : gmap Z SensorData :=
  filter (fun kv => older_than cutoff kv.2 = false) t.

(** [SensorData.query.filter(SensorData.timestamp < cutoff).delete()]:
    the session flushes, the matching rows leave the transaction's
    table, and their number is returned. *)
Definition delete_older_than (cutoff : datetime) : M nat :=
  _ ← flush;
  _ ← execute DELETE;
  t ← get_txn;
  _ ← set_txn (remaining cutoff t);
  mret (size (matching cutoff t)).

(** Rows by descending [id]. *)
Definition id_desc (a b : Z * SensorData) : Prop := b.1 <= a.1.

#[global] Instance id_desc_dec a b : Decision (id_desc a b).
Proof. unfold id_desc. apply _. Defined.

Definition order_by_id_desc (t : gmap Z SensorData) : list (Z * SensorData) :=
  merge_sort id_desc (map_to_list t).

(** [SensorData.query.order_by(SensorData.id.desc()).limit(n).all()]. *)
Definition query_recent (n : nat) : M (list (Z * SensorData)) :=
  _ ← flush;
  t ← get_txn;
  mret (take n (order_by_id_desc t)).

(** [SensorData.query.order_by(SensorData.id.desc()).first()]. *)
Definition query_latest : M (option (Z * SensorData)) :=
  _ ← flush;
  t ← get_txn;
  mret (head (order_by_id_desc t)).

(** One request: a fresh session on the committed table; what the
    session did not commit is dropped with it. *)
Definition serve {A} (view : M A) (w : world) : result A * world :=
  let '(r, c) := view (mkCtx w (table w) []) in (r, wd c).

(** ** Name resolution *)

(** The names bound at module level of [app.py] (lines 1-11, the class,
    the functions). *)
Definition module_globals : list string :=
  ["Flask"; "request"; "jsonify"; "render_template"; "SQLAlchemy"; "CORS";
   "datetime"; "timedelta"; "os"; "app"; "db"; "SensorData"; "check_health";
   "cleanup_data"; "index"; "history"; "receive_data"; "get_latest";
   "__name__"; "__doc__"; "__file__"; "__builtins__"].

(** The names of the module [builtins]. *)
Definition builtins : list string :=
  ["abs"; "aiter"; "all"; "anext"; "any"; "ascii"; "bin"; "bool"; "breakpoint";
   "bytearray"; "bytes"; "callable"; "chr"; "classmethod"; "compile"; "complex";
   "delattr"; "dict"; "dir"; "divmod"; "enumerate"; "eval"; "exec"; "filter";
   "float"; "format"; "frozenset"; "getattr"; "globals"; "hasattr"; "hash";
   "help"; "hex"; "id"; "input"; "int"; "isinstance"; "issubclass"; "iter";
   "len"; "list"; "locals"; "map"; "max"; "memoryview"; "min"; "next"; "object";
   "oct"; "open"; "ord"; "pow"; "print"; "property"; "range"; "repr";
   "reversed"; "round"; "set"; "setattr"; "slice"; "sorted"; "staticmethod";
   "str"; "sum"; "super"; "tuple"; "type"; "vars"; "zip"; "__import__";
   "None"; "True"; "False"; "Ellipsis"; "NotImplemented"; "Exception";
   "BaseException"; "TypeError"; "ValueError"; "NameError"; "KeyError";
   "AttributeError"; "OverflowError"; "exit"; "quit"; "copyright"; "credits";
   "license"].

(** Reading a name inside a function: its local variables, then the
    module's globals, then the builtins; [NameError] otherwise. *)
Definition load_name (locals : gmap string pyval) (name : string) : result pyval :=
  match locals !! name with
  | Some v => Ok v
  | None =>
      if bool_decide (name ∈ module_globals) || bool_decide (name ∈ builtins)
      then Ok (VObject name)
      else Raise (NameError ("name '" +:+ name +:+ "' is not defined"))
  end.

(** ** Logic: healthy silkworm conditions (lines 24-29) *)

(** [a < n] and [a > n] for an int literal [n].  Python compares a
    float with an int by value; the literals of [check_health] are
    exact as floats. *)
Definition py_lt (a : pyval) (n : Z) : result bool :=
  match a with
  | VFloat f => Ok (PrimFloat.ltb f (PyFloat.of_Z n))
  | VInt z => Ok (z <? n)
  | VBool b => Ok ((if b then 1 else 0) <? n)
  | _ => Raise (TypeError
                  ("'<' not supported between instances of '" +:+ type_name a
                   +:+ "' and 'int'"))
  end.

Definition py_gt (a : pyval) (n : Z) : result bool :=
  match a with
  | VFloat f => Ok (PrimFloat.ltb (PyFloat.of_Z n) f)
  | VInt z => Ok (n <? z)
  | VBool b => Ok (n <? (if b then 1 else 0))
  | _ => Raise (TypeError
                  ("'>' not supported between instances of '" +:+ type_name a
                   +:+ "' and 'int'"))
  end.

(** [x or y] on two tests: [y] is evaluated only when [x] is false. *)
Definition py_or (x y : result bool) : result bool :=
  rbind x (fun b => if b then Ok true else y).

Definition check_health (temp hum gas : pyval) : result bool :=
  rbind (py_or (py_lt temp 24) (py_gt temp 29)) (fun c1 =>
  if c1 then Ok false else
  rbind (py_or (py_lt hum 60) (py_gt hum 90)) (fun c2 =>
  if c2 then Ok false else
  rbind (py_gt gas 1500) (fun c3 =>
  if c3 then Ok false else
  Ok true))).

(** ** Logic: delete old data (lines 32-36) *)

Definition cleanup_data : M unit :=
  now ← datetime_now;
  let cutoff := now - timedelta 7 0 0 in
  _ ← delete_older_than cutoff;
  commit.

(** ** Routes *)

(** A JSON object, as [jsonify] receives it, and a response with its
    status code. *)
Definition json : Type := list (string * pyval).
Definition response : Type := json * Z.

(** [/history] (lines 47-51): the rows handed to the template. *)
Definition history : M (list (Z * SensorData)) := query_recent 100.

(** [/api/data], step 1 (lines 61-65): the five fields, each read with
    the default 0 and converted by [float]. *)
Definition field (data : pyval) (name : string) : result float :=
  rbind (py_get data name (VInt 0)) py_float.

Definition parse_data (data : pyval) : result (float * float * float * float * float) :=
  rbind (field data "temperature") (fun temp =>
  rbind (field data "humidity") (fun hum =>
  rbind (field data "soil_moisture") (fun soil =>
  rbind (field data "gas_value") (fun gas =>
  rbind (field data "ldr_value") (fun ldr =>
  Ok (temp, hum, soil, gas, ldr)))))).

(** The local variables of [receive_data] once line 72 has run. *)
Definition locals_at_line_75 (data : pyval) (temp hum soil gas ldr : float)
    (utc_now ist_now : datetime) : gmap string pyval :=
  <["data" := data]> (<["temp" := VFloat temp]> (<["hum" := VFloat hum]>
  (<["soil" := VFloat soil]> (<["gas" := VFloat gas]> (<["ldr" := VFloat ldr]>
  (<["utc_now" := VDatetime utc_now]> (<["ist_now" := VDatetime ist_now]> ∅))))))).

(** Step 2 (lines 75-83): the keyword arguments are evaluated from left
    to right, then the constructor runs. *)
Definition new_SensorData (locals : gmap string pyval) (ist_now : datetime)
  : result instance :=
  rbind (load_name locals "temperature") (fun temperature =>
  rbind (load_name locals "humidity") (fun humidity =>
  rbind (load_name locals "soil_moisture") (fun soil_moisture =>
  rbind (load_name locals "gas_value") (fun gas_value =>
  rbind (load_name locals "ldr_value") (fun ldr_value =>
  rbind (load_name locals "flame_detected") (fun flame_detected =>
  SensorData_init
    [("temperature", temperature); ("humidity", humidity);
     ("soil_moisture", soil_moisture); ("gas_value", gas_value);
     ("ldr_value", ldr_value); ("flame_detected", flame_detected);
     ("timestamp", VStr (strftime ist_now))] ∅)))))).

Definition error_body : json := [("status", VStr "error")].
Definition success_body (buzzer : bool) : json :=
  [("status", VStr "success"); ("buzzer", VBool buzzer)].

(** Steps 2 to 5, from line 84: add, clean up, commit, classify,
    answer. *)
Definition store_and_answer (new_entry : instance) (temp hum gas : float)
  : M response :=
  _ ← session_add new_entry;
  _ ← cleanup_data;
  _ ← commit;
  is_healthy ← lift (check_health (VFloat temp) (VFloat hum) (VFloat gas));
  let buzzer_status := negb is_healthy in
  mret (success_body buzzer_status, 200).

(** The handler of lines 101-103. *)
Definition on_exception (e : exn) : M response :=
  _ ← print ("Error: " +:+ exn_str e);
  mret (error_body, 500).

(** [/api/data] (lines 53-103); [data] is what
    [request.get_json(force=True, silent=True)] returned, [None] for a
    missing or unparseable body.  Lines 69-83 stand one level to the
    left of the [try] body they continue; they are read in place, as the
    statements between line 65 and line 84. *)
Definition receive_data (data : pyval) : M response :=
  if negb (truthy data) then mret (error_body, 400)
  else
    try_except
      ('(temp, hum, soil, gas, ldr) ← lift (parse_data data);
       utc_now ← datetime_now;
       let ist_now := utc_now + timedelta 0 5 30 in
       new_entry ← lift (new_SensorData
                           (locals_at_line_75 data temp hum soil gas ldr utc_now ist_now)
                           ist_now);
       store_and_answer new_entry temp hum gas)
      on_exception.

(** A column value as the attribute of a loaded object. *)
Definition attr_float (x : option float) : pyval :=
  match x with Some f => VFloat f | None => VNone end.

(** [/api/latest], lines 111-122: the answer for the latest row. *)
Definition latest_response (latest : SensorData) : result response :=
  rbind (check_health (attr_float (temperature latest))
                      (attr_float (humidity latest))
                      (attr_float (gas_value latest))) (fun is_healthy =>
  rbind (match timestamp latest with
         | Some t => Ok (strftime t)
         | None => Raise (AttributeError
                            "'NoneType' object has no attribute 'strftime'")
         end) (fun ts =>
  Ok ([("temperature", attr_float (temperature latest));
       ("humidity", attr_float (humidity latest));
       ("soil_moisture", attr_float (soil_moisture latest));
       ("gas_value", attr_float (gas_value latest));
       ("ldr_value", attr_float (ldr_value latest));
       ("timestamp", VStr ts);
       ("is_healthy", VBool is_healthy)], 200))).

(** [/api/latest] (lines 105-122). *)
Definition get_latest : M response :=
  latest ← query_latest;
  match latest with
  | None => mret ([("message", VStr "No data")], 200)
  | Some (_, latest) => lift (latest_response latest)
  end.

(** The entry of a JSON object under a key. *)
Fixpoint json_get (key : string) (body : json) : option pyval :=
  match body with
  | [] => None
  | (k, v) :: rest => if String.eqb k key then Some v else json_get key rest
  end.

(** The entry of an answer's body under a key, when there is an answer. *)
Definition answer_entry (key : string) (r : result response) : result (option pyval) :=
  rbind r (fun x => Ok (json_get key x.1)).

(** The five fields of a reading. *)
Definition fields : list string :=
  ["temperature"; "humidity"; "soil_moisture"; "gas_value"; "ldr_value"].

(** The component of the parsed tuple that a field name stands for. *)
Definition parsed_field (name : string)
    (p : float * float * float * float * float) : option float :=
  let '(temp, hum, soil, gas, ldr) := p in
  if String.eqb name "temperature" then Some temp
  else if String.eqb name "humidity" then Some hum
  else if String.eqb name "soil_moisture" then Some soil
  else if String.eqb name "gas_value" then Some gas
  else if String.eqb name "ldr_value" then Some ldr
  else None.

(** Float comparison as a proposition. *)
Definition flt (a b : float) : Prop := PrimFloat.ltb a b = true.

(** ** Sample worlds and requests *)

(** 2023-11-14 22:13:20. *)
Definition t0 : datetime := 1700000000 * 1000000.

(** The cutoff of a sweep that runs at [t0]. *)
Definition week_before_t0 : datetime := t0 - timedelta 7 0 0.

(** A clock that stands still, a storage layer that never fails, and
    the world with an empty table. *)
Definition steady_clock : nat -> datetime := fun _ => t0.
Definition no_fault : stmt -> bool := fun _ => false.
Definition io_error : stmt -> string := fun _ => "(sqlite3.OperationalError) disk I/O error".
Definition empty_world : world := mkWorld ∅ steady_clock 0%nat no_fault io_error None [].

(** A payload with the five fields, all numbers, in the healthy range. *)
Definition full_payload : pyval :=
  VDict (<["temperature" := VFloat 26.5]> (<["humidity" := VInt 75]>
        (<["soil_moisture" := VInt 40]> (<["gas_value" := VInt 500]>
        (<["ldr_value" := VInt 300]> ∅))))).

(** A row written eight days before [t0], and the world that holds it. *)
Definition old_row : SensorData :=
  mkSensorData (Some 26%float) (Some 75%float) (Some 40%float) (Some 500%float)
               (Some 300%float) (Some (t0 - timedelta 8 0 0)).
Definition old_table : gmap Z SensorData := {[ 1 := old_row ]}.
Definition world_with_old_row : world :=
  mkWorld old_table steady_clock 0%nat no_fault io_error None [].

(** A well-formed new object, as line 84 would receive it. *)
Definition sample_entry : instance :=
  <["temperature" := VFloat 26.5]> (<["humidity" := VFloat 75]>
  (<["soil_moisture" := VFloat 40]> (<["gas_value" := VFloat 500]>
  (<["ldr_value" := VFloat 300]> (<["timestamp" := VDatetime (t0 + timedelta 0 5 30)]> ∅))))).

(** A storage layer that fails every DELETE and nothing else. *)
Definition delete_fault (s : stmt) : bool :=
  match s with DELETE => true | _ => false end.
Definition sweep_fault_world : world := mkWorld ∅ steady_clock 0%nat delete_fault io_error None [].

(** The request from line 84 on, under the handler of line 101, with a
    well-formed new object and a storage layer that fails the DELETE of
    the sweep. *)
Definition sweep_fault_run : result response * ctx :=
  try_except (store_and_answer sample_entry 26.5 75 500) on_exception
             (mkCtx sweep_fault_world ∅ []).

(** The row that [sample_entry] becomes. *)
Definition sample_row : SensorData :=
  mkSensorData (Some 26.5%float) (Some 75%float) (Some 40%float) (Some 500%float)
               (Some 300%float) (Some (t0 + timedelta 0 5 30)).

(** The object [o] carries, column by column, values that bind to the
    row [r]. *)
Definition binds_to (o : instance) (r : SensorData) : Prop :=
  bind_float o "temperature" = Ok (temperature r)
  /\ bind_float o "humidity" = Ok (humidity r)
  /\ bind_float o "soil_moisture" = Ok (soil_moisture r)
  /\ bind_float o "gas_value" = Ok (gas_value r)
  /\ bind_float o "ldr_value" = Ok (ldr_value r)
  /\ exists t, o !! "timestamp" = Some (VDatetime t) /\ timestamp r = Some t.

(** Every id of the table is below the largest one there is. *)
Definition ids_below_max (t : gmap Z SensorData) : Prop :=
  forall k, is_Some (t !! k) -> k < max_rowid.

(** The numbers among the values: floats, ints and bools. *)
Definition is_real (v : pyval) : bool :=
  match v with
  | VFloat _ | VInt _ | VBool _ => true
  | _ => false
  end.

Definition is_dict (v : pyval) : bool :=
  match v with
  | VDict _ => true
  | _ => false
  end.

(** A body with a good temperature, a humidity and a gas value that
    [float] refuses, and nothing else. *)
Definition two_bad_fields : pyval :=
  VDict (<["temperature" := VInt 26]> (<["humidity" := VStr "abc"]>
        (<["gas_value" := VStr "x"]> ∅))).

(** The object that lines 75 to 83 aim at: the five floats and a
    datetime under the six column names. *)
Definition well_formed_entry (temp hum soil gas ldr : float) (ts : datetime)
  : instance :=
  <["temperature" := VFloat temp]> (<["humidity" := VFloat hum]>
  (<["soil_moisture" := VFloat soil]> (<["gas_value" := VFloat gas]>
  (<["ldr_value" := VFloat ldr]> (<["timestamp" := VDatetime ts]> ∅))))).

(** The threshold tests of the classifier on floats: some test fails. *)
Definition out_of_range (temp hum gas : float) : bool :=
  PrimFloat.ltb temp 24 || PrimFloat.ltb 29 temp
  || PrimFloat.ltb hum 60 || PrimFloat.ltb 90 hum || PrimFloat.ltb 1500 gas.

(** The row that the five floats and the datetime are stored as. *)
Definition stored_row (temp hum soil gas ldr : float) (ts : datetime) : SensorData :=
  mkSensorData (sql_real temp) (sql_real hum) (sql_real soil) (sql_real gas)
               (sql_real ldr) (Some ts).

(** The body of [/api/latest] for that row. *)
Definition stored_body (temp hum soil gas ldr : float) (ts : datetime) : json :=
  [("temperature", attr_float (sql_real temp));
   ("humidity", attr_float (sql_real hum));
   ("soil_moisture", attr_float (sql_real soil));
   ("gas_value", attr_float (sql_real gas));
   ("ldr_value", attr_float (sql_real ldr));
   ("timestamp", VStr (strftime ts));
   ("is_healthy", VBool (negb (out_of_range temp hum gas)))].

(** A storage layer that fails every COMMIT and nothing else. *)
Definition commit_fault (s : stmt) : bool :=
  match s with COMMIT => true | _ => false end.
Definition commit_fault_world : world :=
  mkWorld old_table steady_clock 0%nat commit_fault io_error None [].

(** A computation that leaves the list of pending objects alone. *)
Definition keeps_pending {A} (m : M A) : Prop := forall c, pending (m c).2 = pending c.

(** The context in which the sweep of line 87 runs when the table is
    empty and [sample_entry] was just added. *)
Definition ctx_after_add : ctx := mkCtx empty_world ∅ [sample_entry].

(** Two contexts that differ at most in the open transaction, the
    pending objects and the number of clock readings. *)
Definition same_store (c c' : ctx) : Prop :=
  table (wd c') = table (wd c) /\ failing (wd c') = failing (wd c)
  /\ clock (wd c') = clock (wd c) /\ stdout (wd c') = stdout (wd c).

(** A computation that neither commits nor prints. *)
Definition keeps_store {A} (m : M A) : Prop := forall c, same_store c (m c).2.

(** ** Decimal texts

    What the claims call a numeric string, written down apart from the
    parser: the text of a plain decimal, from its sign and its digits,
    and the number its digits stand for. *)

(** The character of a digit. *)
Definition digit (d : nat) : ascii := PyFloat.chr (48 + Z.of_nat d).

(** The text of a plain decimal: a minus sign when [neg], the digits of
    the integer part and, when there are fraction digits, a point and
    the digits of the fraction. *)
Definition decimal_text (neg : bool) (ip fp : list nat) : string :=
  string_of_list_ascii
    ((if neg then ["-"%char] else [])
     ++ map digit ip
     ++ match fp with [] => [] | _ => "."%char :: map digit fp end)%list.

(** The number that a list of digits stands for. *)
Definition decimal_number (ds : list nat) : Z :=
  fold_left (fun acc d => 10 * acc + Z.of_nat d) ds 0.

(** The quotient of [m] by [10^k] as the processor's division rounds
    it, with the sign [neg]. *)
Definition quotient (neg : bool) (m k : Z) : float :=
  let q := PrimFloat.div (PrimFloat.of_uint63 (Uint63.of_Z m))
                         (PrimFloat.of_uint63 (Uint63.of_Z (10 ^ k))) in
  if neg then PrimFloat.opp q else q.





(** * Properties *)

(** ** The builtins on examples *)

Example float_of_int_26 : py_float (VInt 26) = Ok 26%float.
Proof. reflexivity. Qed.
Example float_of_str_26_5 : py_float (VStr "26.5") = Ok 26.5%float.
Proof. vm_compute. reflexivity. Qed.
Example float_of_str_padded : py_float (VStr "  -1_0.25e+1 ") = Ok (-102.5)%float.
Proof. vm_compute. reflexivity. Qed.
Example float_of_str_tenth : py_float (VStr "0.1") = Ok 0.1%float.
Proof. vm_compute. reflexivity. Qed.
Example float_of_str_2399 : py_float (VStr "23.99") = Ok 23.99%float.
Proof. vm_compute. reflexivity. Qed.
Example float_of_str_abc :
  py_float (VStr "abc") = Raise (ValueError "could not convert string to float: 'abc'").
Proof. vm_compute. reflexivity. Qed.
Example float_of_str_fullwidth : py_float (VStr "１２.５") = Ok 12.5%float.
Proof. vm_compute. reflexivity. Qed.
Example float_of_str_arabic_indic : py_float (VStr "٣.٥") = Ok 3.5%float.
Proof. vm_compute. reflexivity. Qed.
Example float_of_str_no_break_space : py_float (VStr " 7 ") = Ok 7%float.
Proof. vm_compute. reflexivity. Qed.
Example float_of_str_exponent : py_float (VStr "1.5e3") = Ok 1500%float.
Proof. vm_compute. reflexivity. Qed.
Example float_of_str_inf : py_float (VStr "-Infinity") = Ok neg_infinity.
Proof. vm_compute. reflexivity. Qed.
Example float_of_str_empty :
  py_float (VStr "") = Raise (ValueError "could not convert string to float: ''").
Proof. vm_compute. reflexivity. Qed.
Example float_of_str_comma :
  py_float (VStr "26,5") = Raise (ValueError "could not convert string to float: '26,5'").
Proof. vm_compute. reflexivity. Qed.
Example float_of_str_underscores :
  py_float (VStr "1__0") = Raise (ValueError "could not convert string to float: '1__0'").
Proof. vm_compute. reflexivity. Qed.
Example float_of_str_quote :
  py_float (VStr "it's")
  = Raise (ValueError ("could not convert string to float: "
                       +:+ String (PyFloat.chr 34) ("it's" +:+ String (PyFloat.chr 34) EmptyString))).
Proof. vm_compute. reflexivity. Qed.
Example float_of_none :
  py_float VNone
  = Raise (TypeError "float() argument must be a string or a real number, not 'NoneType'").
Proof. reflexivity. Qed.
Example float_of_big_int : exists m, py_float (VInt (10 ^ 400)) = Raise (OverflowError m).
Proof. eexists. vm_compute. reflexivity. Qed.
Example strftime_epoch : strftime 0 = "1970-01-01 00:00:00".
Proof. reflexivity. Qed.
Example strftime_leap_day :
  strftime (1709251199 * 1000000 + 999999) = "2024-02-29 23:59:59".
Proof. vm_compute. reflexivity. Qed.
Example strftime_new_year : strftime (1735689600 * 1000000) = "2025-01-01 00:00:00".
Proof. vm_compute. reflexivity. Qed.

(** The format has no field below the second: two datetimes within the
    same second print alike. *)
Example strftime_year_999 :
  strftime (-30636662400 * 1000000) = "999-03-01 00:00:00".
Proof. vm_compute. reflexivity. Qed.
Lemma strftime_truncates (t : datetime) :
  strftime t = strftime (whole_seconds t * 1000000).
Proof.
  unfold strftime, whole_seconds. rewrite Z.div_mul by lia. reflexivity.
Qed.

Example timedelta_ist : timedelta 0 5 30 = 19800 * 1000000.
Proof. reflexivity. Qed.
Example timedelta_week : timedelta 7 0 0 = 7 * 86400 * 1000000.
Proof. reflexivity. Qed.

(** ** The health classifier *)

Lemma of_Z_24 : PyFloat.of_Z 24 = 24%float.
Proof. reflexivity. Qed.
Lemma of_Z_29 : PyFloat.of_Z 29 = 29%float.
Proof. reflexivity. Qed.
Lemma of_Z_60 : PyFloat.of_Z 60 = 60%float.
Proof. reflexivity. Qed.
Lemma of_Z_90 : PyFloat.of_Z 90 = 90%float.
Proof. reflexivity. Qed.
Lemma of_Z_1500 : PyFloat.of_Z 1500 = 1500%float.
Proof. reflexivity. Qed.

(** On floats the classifier returns, and its answer is the negation of
    the five threshold tests. *)
Lemma check_health_float (t h g : float) :
  check_health (VFloat t) (VFloat h) (VFloat g)
  = Ok (negb (PrimFloat.ltb t 24 || PrimFloat.ltb 29 t
              || PrimFloat.ltb h 60 || PrimFloat.ltb 90 h
              || PrimFloat.ltb 1500 g)).
Proof.
  unfold check_health, py_or, py_lt, py_gt, rbind, Ok.
  rewrite of_Z_24, of_Z_29, of_Z_60, of_Z_90, of_Z_1500.
  destruct (PrimFloat.ltb t 24), (PrimFloat.ltb 29 t),
    (PrimFloat.ltb h 60), (PrimFloat.ltb 90 h), (PrimFloat.ltb 1500 g);
    reflexivity.
Qed.

Lemma check_health_int (t h g : Z) :
  check_health (VInt t) (VInt h) (VInt g)
  = Ok (negb ((t <? 24) || (29 <? t) || (h <? 60) || (90 <? h) || (1500 <? g))).
Proof.
  unfold check_health, py_or, py_lt, py_gt, rbind, Ok.
  destruct (t <? 24), (29 <? t), (h <? 60), (90 <? h), (1500 <? g); reflexivity.
Qed.

(** The answer for the latest row reads three columns only. *)
Lemma latest_response_is_healthy (r : SensorData) (body : json) (code : Z) :
  latest_response r = Ok (body, code) ->
  exists b,
    check_health (attr_float (temperature r)) (attr_float (humidity r))
                 (attr_float (gas_value r)) = Ok b
    /\ json_get "is_healthy" body = Some (VBool b).
Proof.
  unfold latest_response, rbind.
  destruct (check_health _ _ _) as [e|b]; [discriminate|].
  destruct (timestamp r); [|discriminate].
  intros [= <- <-]. exists b. split; reflexivity.
Qed.

(** C2: for all floats [t], [h], [g], [check_health] answers false
    exactly when [t < 24] or [t > 29] or [h < 60] or [h > 90] or
    [g > 1500], and the same holds for ints; the six sample calls give
    true, false, false, false, true, false; and in [/api/latest] the
    classification of a row is unchanged, together with the success of
    the request, when its soil moisture and light level are replaced. *)
Theorem C2_check_health_thresholds :
  (forall t h g : float, exists b : bool,
      check_health (VFloat t) (VFloat h) (VFloat g) = Ok b
      /\ (b = false <->
          flt t 24 \/ flt 29 t \/ flt h 60 \/ flt 90 h \/ flt 1500 g))
  /\ (forall t h g : Z, exists b : bool,
      check_health (VInt t) (VInt h) (VInt g) = Ok b
      /\ (b = false <-> t < 24 \/ 29 < t \/ h < 60 \/ 90 < h \/ 1500 < g))
  /\ check_health (VInt 26) (VInt 75) (VInt 500) = Ok true
  /\ check_health (VInt 30) (VInt 75) (VInt 500) = Ok false
  /\ check_health (VInt 26) (VInt 50) (VInt 500) = Ok false
  /\ check_health (VInt 26) (VInt 75) (VInt 2000) = Ok false
  /\ check_health (VInt 24) (VInt 60) (VInt 1500) = Ok true
  /\ check_health (VFloat 23.99) (VInt 60) (VInt 1500) = Ok false
  /\ (forall (r : SensorData) (soil ldr : option float),
      let r' := mkSensorData (temperature r) (humidity r) soil (gas_value r) ldr
                             (timestamp r) in
      answer_entry "is_healthy" (latest_response r')
      = answer_entry "is_healthy" (latest_response r)).
Proof.
  split; [|split; [|repeat split; try reflexivity]].
  - intros t h g. eexists. split; [apply check_health_float|].
    unfold flt.
    destruct (PrimFloat.ltb t 24), (PrimFloat.ltb 29 t),
      (PrimFloat.ltb h 60), (PrimFloat.ltb 90 h), (PrimFloat.ltb 1500 g);
      simpl; intuition congruence.
  - intros t h g. eexists. split; [apply check_health_int|].
    destruct (Z.ltb_spec t 24), (Z.ltb_spec 29 t), (Z.ltb_spec h 60),
      (Z.ltb_spec 90 h), (Z.ltb_spec 1500 g); simpl;
      split; intros; try discriminate; try reflexivity; try lia;
      intuition lia.
  - intros r soil ldr r'. unfold answer_entry, latest_response, rbind. simpl.
    destruct (check_health _ _ _); [reflexivity|].
    destruct (timestamp r); reflexivity.
Qed.

(** ** Validation (lines 61-65) *)

Lemma field_present (d : gmap string pyval) (k : string) (v : pyval) :
  d !! k = Some v -> field (VDict d) k = py_float v.
Proof. intros H. unfold field, py_get. simpl. rewrite H. reflexivity. Qed.

Lemma field_absent (d : gmap string pyval) (k : string) :
  d !! k = None -> field (VDict d) k = Ok 0%float.
Proof. intros H. unfold field, py_get. simpl. rewrite H. reflexivity. Qed.

Lemma field_raises (d : gmap string pyval) (k : string) (e : exn) :
  field (VDict d) k = Raise e -> exists v, d !! k = Some v /\ py_float v = Raise e.
Proof.
  destruct (d !! k) as [v|] eqn:H.
  - rewrite (field_present _ _ _ H). eauto.
  - rewrite (field_absent _ _ H). discriminate.
Qed.

(** Membership of a literal in a literal list, by evaluation. *)
Ltac in_list := refine (bool_decide_unpack _ _); vm_compute; exact I.

(** Case analysis on the comparison of a name with a literal. *)
Ltac case_name k :=
  match goal with
  | |- context [String.eqb k ?s] => destruct (String.eqb_spec k s) as [->|_]
  end.

(** The parsed tuple holds the five conversions, field by field. *)
Lemma parse_data_Ok (data : pyval) (p : float * float * float * float * float) :
  parse_data data = Ok p <->
  forall k x, parsed_field k p = Some x -> field data k = Ok x.
Proof.
  destruct p as [[[[t h] s] g] l]. unfold parse_data, rbind. split.
  - destruct (field data "temperature") as [?|t'] eqn:Ht; [discriminate|].
    destruct (field data "humidity") as [?|h'] eqn:Hh; [discriminate|].
    destruct (field data "soil_moisture") as [?|s'] eqn:Hs; [discriminate|].
    destruct (field data "gas_value") as [?|g'] eqn:Hg; [discriminate|].
    destruct (field data "ldr_value") as [?|l'] eqn:Hl; [discriminate|].
    intros [= -> -> -> -> ->] k x. unfold parsed_field.
    repeat (case_name k; [intros [= <-]; assumption|]).
    discriminate.
  - intros H.
    rewrite (H "temperature" t eq_refl), (H "humidity" h eq_refl),
      (H "soil_moisture" s eq_refl), (H "gas_value" g eq_refl),
      (H "ldr_value" l eq_refl).
    reflexivity.
Qed.

(** Validation fails only on a field that is present and that [float]
    refuses, and it reports that field's exception. *)
Lemma parse_data_Raise (d : gmap string pyval) (e : exn) :
  parse_data (VDict d) = Raise e ->
  exists k v, k ∈ fields /\ d !! k = Some v /\ py_float v = Raise e.
Proof.
  unfold parse_data, rbind, fields.
  destruct (field (VDict d) "temperature") as [e1|?] eqn:H1.
  { intros [= ->]. apply field_raises in H1 as (v & ? & ?).
    exists "temperature", v. split; [in_list|auto]. }
  destruct (field (VDict d) "humidity") as [e2|?] eqn:H2.
  { intros [= ->]. apply field_raises in H2 as (v & ? & ?).
    exists "humidity", v. split; [in_list|auto]. }
  destruct (field (VDict d) "soil_moisture") as [e3|?] eqn:H3.
  { intros [= ->]. apply field_raises in H3 as (v & ? & ?).
    exists "soil_moisture", v. split; [in_list|auto]. }
  destruct (field (VDict d) "gas_value") as [e4|?] eqn:H4.
  { intros [= ->]. apply field_raises in H4 as (v & ? & ?).
    exists "gas_value", v. split; [in_list|auto]. }
  destruct (field (VDict d) "ldr_value") as [e5|?] eqn:H5.
  { intros [= ->]. apply field_raises in H5 as (v & ? & ?).
    exists "ldr_value", v. split; [in_list|auto]. }
  discriminate.
Qed.

(** Validation returns or raises; it raises as soon as one of the five
    conversions does. *)
Lemma parse_data_field_raises (data : pyval) (k : string) (e : exn) :
  k ∈ fields -> field data k = Raise e -> exists e', parse_data data = Raise e'.
Proof.
  intros Hk Hf. destruct (parse_data data) as [e'|p] eqn:Hp; [eauto|].
  exfalso. destruct p as [[[[t h] s] g] l].
  pose proof (proj1 (parse_data_Ok _ _) Hp) as H.
  unfold fields in Hk.
  repeat (apply elem_of_cons in Hk as [->|Hk];
          [erewrite H in Hf by reflexivity; discriminate|]).
  inversion Hk.
Qed.

Lemma parse_data_total (data : pyval) :
  (forall k, k ∈ fields -> exists x, field data k = Ok x) ->
  exists p, parse_data data = Ok p.
Proof.
  intros H. unfold parse_data, rbind.
  assert (forall k, k ∈ fields -> exists x, field data k = inr x) as H' by exact H.
  clear H.
  destruct (H' "temperature") as [t Ht]; [in_list|].
  destruct (H' "humidity") as [h Hh]; [in_list|].
  destruct (H' "soil_moisture") as [s Hs]; [in_list|].
  destruct (H' "gas_value") as [g Hg]; [in_list|].
  destruct (H' "ldr_value") as [l Hl]; [in_list|].
  rewrite Ht, Hh, Hs, Hg, Hl. eauto.
Qed.

(** ** The ingestion view (lines 53-103) *)

(** The world after a request that printed one line and read the clock
    [n] times, the table untouched. *)
Definition logged (w : world) (n : nat) (line : string) : world :=
  mkWorld (table w) (clock w) (n + ticks w) (failing w) (fault_text w) (spare_rowid w) (stdout w ++ [line])%list.

(** None of the names that line 76 to 81 read is bound: the parsed
    values live in [temp], [hum], [soil], [gas] and [ldr]. *)
Lemma new_SensorData_unbound (data : pyval) (temp hum soil gas ldr : float)
    (utc_now ist_now : datetime) :
  new_SensorData (locals_at_line_75 data temp hum soil gas ldr utc_now ist_now) ist_now
  = Raise (NameError "name 'temperature' is not defined").
Proof. vm_compute. reflexivity. Qed.

(** A falsy body is answered 400 and nothing else happens. *)
Lemma receive_data_falsy (data : pyval) (w : world) :
  truthy data = false -> serve (receive_data data) w = (Ok (error_body, 400), w).
Proof.
  intros H. unfold serve, receive_data. rewrite H. simpl. destruct w; reflexivity.
Qed.

(** A validation error is printed and answered 500; the clock is not
    read and the table is not touched. *)
Lemma receive_data_invalid (data : pyval) (e : exn) (w : world) :
  truthy data = true -> parse_data data = Raise e ->
  serve (receive_data data) w
  = (Ok (error_body, 500), logged w 0 ("Error: " +:+ exn_str e)).
Proof.
  intros H He. unfold serve, receive_data, try_except. rewrite H. simpl.
  unfold mbind, M_bind, lift. rewrite He. reflexivity.
Qed.

(** A payload that passes validation reaches line 76, where the request
    fails on the unbound name. *)
Lemma receive_data_valid (data : pyval) (p : float * float * float * float * float)
    (w : world) :
  truthy data = true -> parse_data data = Ok p ->
  serve (receive_data data) w
  = (Ok (error_body, 500), logged w 1 "Error: name 'temperature' is not defined").
Proof.
  intros H Hp. unfold serve, receive_data, try_except. rewrite H. simpl.
  unfold mbind, M_bind, lift. rewrite Hp. destruct p as [[[[t h] s] g] l].
  simpl. rewrite new_SensorData_unbound. reflexivity.
Qed.

(** No request to [/api/data] is answered with success, and none
    changes the table. *)
Lemma receive_data_never_stores (data : pyval) (w : world) :
  table (serve (receive_data data) w).2 = table w
  /\ exists code, (serve (receive_data data) w).1 = Ok (error_body, code)
                  /\ (code = 400 \/ code = 500).
Proof.
  destruct (truthy data) eqn:H.
  - destruct (parse_data data) as [e|p] eqn:Hp.
    + rewrite (receive_data_invalid _ _ _ H Hp). simpl. eauto.
    + rewrite (receive_data_valid _ _ _ H Hp). simpl. eauto.
  - rewrite (receive_data_falsy _ _ H). simpl. eauto.
Qed.

Lemma dict_with_entry_truthy (d : gmap string pyval) (k : string) (v : pyval) :
  d !! k = Some v -> truthy (VDict d) = true.
Proof.
  intros H. simpl. rewrite bool_decide_eq_false_2; [reflexivity|].
  intros ->. rewrite lookup_empty in H. discriminate.
Qed.

(** C3: when one of the five fields is present with a value that
    [float] refuses, the request is answered 500 with the error body,
    the exception printed is the conversion error of such a field, and
    the table is the one before the request, row for row. *)
Theorem C3_malformed_payload_leaves_store (w : world) (d : gmap string pyval)
    (k : string) (v : pyval) (e : exn) :
  k ∈ fields -> d !! k = Some v -> py_float v = Raise e ->
  exists k' v' e',
    k' ∈ fields /\ d !! k' = Some v' /\ py_float v' = Raise e'
    /\ serve (receive_data (VDict d)) w
       = (Ok (error_body, 500), logged w 0 ("Error: " +:+ exn_str e'))
    /\ table (serve (receive_data (VDict d)) w).2 = table w
    /\ size (table (serve (receive_data (VDict d)) w).2) = size (table w).
Proof.
  intros Hk Hd He.
  destruct (parse_data_field_raises (VDict d) k e Hk) as [e' He'].
  { rewrite (field_present _ _ _ Hd). exact He. }
  destruct (parse_data_Raise _ _ He') as (k' & v' & Hk' & Hd' & Hv').
  exists k', v', e'.
  rewrite (receive_data_invalid _ _ _ (dict_with_entry_truthy _ _ _ Hd) He').
  simpl. repeat split; assumption || reflexivity.
Qed.

Lemma C3_witness :
  exists k' v' e',
    k' ∈ fields /\ ({[ "temperature" := VStr "abc" ]} : gmap string pyval) !! k' = Some v'
    /\ py_float v' = Raise e'
    /\ serve (receive_data (VDict {[ "temperature" := VStr "abc" ]})) world_with_old_row
       = (Ok (error_body, 500),
          logged world_with_old_row 0 ("Error: " +:+ exn_str e'))
    /\ table (serve (receive_data (VDict {[ "temperature" := VStr "abc" ]}))
                    world_with_old_row).2 = table world_with_old_row
    /\ size (table (serve (receive_data (VDict {[ "temperature" := VStr "abc" ]}))
                          world_with_old_row).2) = size (table world_with_old_row).
Proof.
  apply (C3_malformed_payload_leaves_store world_with_old_row
           {[ "temperature" := VStr "abc" ]} "temperature" (VStr "abc")
           (ValueError "could not convert string to float: 'abc'")).
  - in_list.
  - vm_compute. reflexivity.
  - vm_compute. reflexivity.
Defined.

Lemma parsed_field_fields (k : string) (p : float * float * float * float * float) :
  k ∈ fields -> exists x, parsed_field k p = Some x.
Proof.
  destruct p as [[[[t h] s] g] l]. unfold fields. intros Hk.
  repeat (apply elem_of_cons in Hk as [->|Hk]; [simpl; eauto|]).
  inversion Hk.
Qed.

(** The empty object is falsy: line 56 answers 400 before validation
    starts, whatever the world. *)
Lemma receive_data_empty_object (w : world) :
  serve (receive_data (VDict ∅)) w = (Ok (error_body, 400), w).
Proof. apply receive_data_falsy. reflexivity. Qed.

(** C4, as stated, fails on the empty object: the request is answered
    400 with the error body, not with success, and the table stays
    empty. *)
Lemma C4_empty_object_is_rejected :
  serve (receive_data (VDict ∅)) empty_world = (Ok (error_body, 400), empty_world)
  /\ ~ (exists b, (serve (receive_data (VDict ∅)) empty_world).1
                  = Ok (success_body b, 200))
  /\ table (serve (receive_data (VDict ∅)) empty_world).2 = ∅.
Proof.
  rewrite receive_data_empty_object. simpl. split; [reflexivity|split].
  - intros [b H]. discriminate H.
  - reflexivity.
Qed.

(** C4, amended: in every JSON object, a field among the five that is
    absent is read as 0.0 by validation, validation returns when every
    field that is present converts, and the tuple it returns holds 0.0
    for each absent field; the empty object is not ingested: the request
    is answered 400 with the error body and the world is unchanged. *)
Theorem C4_absent_fields_read_as_zero :
  (forall (d : gmap string pyval) (k : string),
      d !! k = None -> field (VDict d) k = Ok 0%float)
  /\ (forall (d : gmap string pyval),
      (forall k v, k ∈ fields -> d !! k = Some v -> exists x, py_float v = Ok x) ->
      exists p, parse_data (VDict d) = Ok p)
  /\ (forall (d : gmap string pyval) p (k : string),
      parse_data (VDict d) = Ok p -> k ∈ fields -> d !! k = None ->
      parsed_field k p = Some 0%float)
  /\ (forall w, serve (receive_data (VDict ∅)) w = (Ok (error_body, 400), w)).
Proof.
  split; [|split; [|split]].
  - apply field_absent.
  - intros d H. apply parse_data_total. intros k Hk.
    destruct (d !! k) as [v|] eqn:Hd.
    + rewrite (field_present _ _ _ Hd). eauto.
    + rewrite (field_absent _ _ Hd). eauto.
  - intros d p k Hp Hk Hd.
    destruct (parsed_field_fields k p Hk) as [x Hx]. rewrite Hx.
    pose proof (proj1 (parse_data_Ok _ _) Hp k x Hx) as Hf.
    rewrite (field_absent _ _ Hd) in Hf. injection Hf as <-. reflexivity.
  - apply receive_data_empty_object.
Qed.

(** ** Numeric strings *)


























(** The float of ["26.5"], through the text of the decimal and through
    the processor's division. *)
Example decimal_text_26_5 :
  decimal_text false [2; 6]%nat [5]%nat = "26.5"
  /\ PyFloat.of_decimal false (decimal_number [2; 6; 5]%nat) (- 1) = 26.5%float
  /\ quotient false 265 1 = 26.5%float.
Proof. repeat split; vm_compute; reflexivity. Qed.

Example parse_data_numeric_string :
  parse_data (VDict {[ "temperature" := VStr "26.5" ]})
  = Ok (26.5, 0, 0, 0, 0)%float.
Proof. vm_compute. reflexivity. Qed.

Example two_numeric_strings :
  parse_data (VDict (<["temperature" := VStr "26.5"]> {[ "humidity" := VStr "１２.５" ]}))
  = Ok (26.5, 12.5, 0, 0, 0)%float.
Proof. vm_compute. reflexivity. Qed.
Example parse_data_abc :
  parse_data (VDict {[ "temperature" := VStr "abc" ]})
  = Raise (ValueError "could not convert string to float: 'abc'").
Proof. vm_compute. reflexivity. Qed.

Example parse_data_full_payload :
  parse_data full_payload = Ok (26.5, 75, 40, 500, 300)%float.
Proof. vm_compute. reflexivity. Qed.

(** C1, on the code: ingesting the payload with five numeric fields
    into the empty table is answered 500, the handler prints the
    [NameError] of line 76, the table stays empty and [/api/latest]
    answers that there is no data, where the specification expects the
    reading back. *)
Theorem C1_ingest_then_latest_on_the_code :
  parse_data full_payload = Ok (26.5, 75, 40, 500, 300)%float
  /\ (serve (receive_data full_payload) empty_world).1 = Ok (error_body, 500)
  /\ stdout (serve (receive_data full_payload) empty_world).2
     = ["Error: name 'temperature' is not defined"]
  /\ table (serve (receive_data full_payload) empty_world).2 = ∅
  /\ (serve get_latest (serve (receive_data full_payload) empty_world).2).1
     = Ok ([("message", VStr "No data")], 200).
Proof.
  assert (truthy full_payload = true) as Ht by (vm_compute; reflexivity).
  rewrite (receive_data_valid _ _ empty_world Ht parse_data_full_payload).
  repeat split; vm_compute; reflexivity.
Qed.

(** C5, on the code: the payload with five numeric fields is
    classified healthy, so the specification expects status 200 with the
    buzzer off; the request is answered 500 with the error body. *)
Theorem C5_valid_payload_answer_on_the_code :
  check_health (VFloat 26.5) (VFloat 75) (VFloat 500) = Ok true
  /\ serve (receive_data full_payload) empty_world
     = (Ok (error_body, 500),
        logged empty_world 1 "Error: name 'temperature' is not defined")
  /\ (serve (receive_data full_payload) empty_world).1
     <> Ok (success_body (negb true), 200).
Proof.
  assert (truthy full_payload = true) as Ht by (vm_compute; reflexivity).
  rewrite (receive_data_valid _ _ empty_world Ht parse_data_full_payload).
  repeat split; try (vm_compute; reflexivity).
  simpl. discriminate.
Qed.

(** ** The bounded listing (lines 47-51) *)

#[local] Instance id_desc_total : Total id_desc.
Proof. intros a b. unfold id_desc. lia. Qed.

#[local] Instance id_desc_trans : Transitive id_desc.
Proof. intros a b c. unfold id_desc. lia. Qed.

Lemma order_by_id_desc_perm (t : gmap Z SensorData) :
  order_by_id_desc t ≡ₚ map_to_list t.
Proof. apply merge_sort_Permutation. Qed.

Lemma order_by_id_desc_lookup (t : gmap Z SensorData) (k : Z) (r : SensorData) :
  (k, r) ∈ order_by_id_desc t <-> t !! k = Some r.
Proof. rewrite order_by_id_desc_perm. apply elem_of_map_to_list. Qed.

(** Distinct keys turn the descending order into a strict one. *)
Lemma strictly_descending (l : list (Z * SensorData)) :
  StronglySorted id_desc l -> NoDup l.*1 ->
  StronglySorted (fun a b => b.1 < a.1) l.
Proof.
  induction 1 as [|x l Hs IH Hall]; intros Hnd; constructor.
  - apply IH. apply (NoDup_cons_1_2 _ _ Hnd).
  - apply NoDup_cons_1_1 in Hnd. rewrite Forall_forall in Hall |- *.
    intros y Hy. specialize (Hall y Hy). unfold id_desc in Hall.
    assert (y.1 <> x.1).
    { intros Heq. apply Hnd. rewrite <- Heq. apply list_elem_of_fmap_2. exact Hy. }
    lia.
Qed.

Lemma order_by_id_desc_strict (t : gmap Z SensorData) :
  StronglySorted (fun a b => b.1 < a.1) (order_by_id_desc t).
Proof.
  apply strictly_descending.
  - apply StronglySorted_merge_sort; apply _.
  - rewrite order_by_id_desc_perm. apply NoDup_fst_map_to_list.
Qed.

Lemma StronglySorted_take {A} (R : relation A) (n : nat) (l : list A) :
  StronglySorted R l -> StronglySorted R (take n l).
Proof.
  intros H. rewrite <- (take_drop n l) in H.
  apply (StronglySorted_app_1_l _ _ _ H).
Qed.

(** With nothing pending the flush does nothing. *)
Lemma flush_nothing (c : ctx) : pending c = [] -> flush c = (Ok tt, c).
Proof. intros H. unfold flush. simpl. rewrite H. destruct c; simpl in *; subst; reflexivity. Qed.

Lemma serve_history (w : world) :
  serve history w = (Ok (take 100 (order_by_id_desc (table w))), w).
Proof. destruct w. reflexivity. Qed.

(** C6: in every world the listing returns, leaves the world as it
    is, and hands out at most 100 rows of the table, in strictly
    descending order of [id]. *)
Theorem C6_history_bounded_descending (w : world) :
  exists rows,
    serve history w = (Ok rows, w)
    /\ (length rows <= 100)%nat
    /\ StronglySorted (fun a b => b.1 < a.1) rows
    /\ (forall k r, (k, r) ∈ rows -> table w !! k = Some r).
Proof.
  exists (take 100 (order_by_id_desc (table w))).
  split; [apply serve_history|split; [|split]].
  - rewrite length_take. lia.
  - apply StronglySorted_take, order_by_id_desc_strict.
  - intros k r Hin. apply order_by_id_desc_lookup.
    apply (subseteq_take 100). exact Hin.
Qed.

(** ** The range delete *)

Lemma lookup_remaining (cutoff : datetime) (t : gmap Z SensorData) (k : Z)
    (r : SensorData) :
  remaining cutoff t !! k = Some r <-> t !! k = Some r /\ older_than cutoff r = false.
Proof. unfold remaining. rewrite map_lookup_filter_Some. reflexivity. Qed.

Lemma lookup_matching (cutoff : datetime) (t : gmap Z SensorData) (k : Z)
    (r : SensorData) :
  matching cutoff t !! k = Some r <-> t !! k = Some r /\ older_than cutoff r = true.
Proof. unfold matching. rewrite map_lookup_filter_Some. reflexivity. Qed.

Lemma remaining_idem (cutoff : datetime) (t : gmap Z SensorData) :
  remaining cutoff (remaining cutoff t) = remaining cutoff t.
Proof.
  apply map_eq. intros k. apply option_eq. intros r.
  rewrite !lookup_remaining. tauto.
Qed.

Lemma matching_remaining (cutoff : datetime) (t : gmap Z SensorData) :
  matching cutoff (remaining cutoff t) = ∅.
Proof.
  apply map_eq. intros k. rewrite lookup_empty. apply option_eq. intros r.
  rewrite lookup_matching, lookup_remaining. split; [|discriminate].
  intros [[_ H1] H2]. congruence.
Qed.

Lemma matching_nonempty (cutoff : datetime) (t : gmap Z SensorData) (k : Z)
    (r : SensorData) :
  t !! k = Some r -> older_than cutoff r = true -> (0 < size (matching cutoff t))%nat.
Proof.
  intros Ht Ho.
  assert (size (matching cutoff t) <> 0%nat); [|lia].
  apply (map_size_ne_0_lookup_2 _ k). exists r. apply lookup_matching. auto.
Qed.

(** The rows split into those the delete selects and those it leaves. *)
Lemma matching_remaining_size (cutoff : datetime) (t : gmap Z SensorData) :
  (size (matching cutoff t) + size (remaining cutoff t) = size t)%nat.
Proof.
  rewrite <- map_size_disj_union.
  - f_equal. apply map_eq. intros k. apply option_eq. intros r.
    rewrite lookup_union_Some_raw, lookup_matching, lookup_remaining.
    rewrite eq_None_not_Some. unfold is_Some.
    setoid_rewrite lookup_matching.
    destruct (older_than cutoff r) eqn:Ho; split.
    + intros [[? _]|[_ [? ?]]]; [assumption|discriminate].
    + intros H. left. auto.
    + intros [[_ ?]|[_ [? _]]]; [discriminate|assumption].
    + intros H. right. split; [|auto]. intros [r' [Hr' ?]]. congruence.
  - apply map_disjoint_spec. intros k r1 r2.
    rewrite lookup_matching, lookup_remaining. intros [H1 ?] [H2 ?].
    congruence.
Qed.

(** The delete on a session with nothing pending and a storage layer
    that accepts DELETE. *)
Lemma delete_older_than_run (cutoff : datetime) (c : ctx) :
  pending c = [] -> failing (wd c) DELETE = false ->
  delete_older_than cutoff c
  = (Ok (size (matching cutoff (txn c))), mkCtx (wd c) (remaining cutoff (txn c)) []).
Proof.
  intros Hp Hf. unfold delete_older_than, mbind, M_bind.
  rewrite (flush_nothing _ Hp). unfold execute. rewrite Hf. simpl.
  rewrite Hp. reflexivity.
Qed.

(** Being older than the cutoff, on the timestamp: a row without a
    timestamp is never older. *)
Lemma older_than_spec (cutoff : datetime) (r : SensorData) :
  older_than cutoff r = true <-> exists t, timestamp r = Some t /\ t < cutoff.
Proof.
  unfold older_than. destruct (timestamp r) as [t|].
  - rewrite Z.ltb_lt. split; [eauto|]. intros (t' & [= <-] & ?). assumption.
  - split; [discriminate|]. intros (t' & [=] & _).
Qed.

Lemma not_older_than_spec (cutoff : datetime) (r : SensorData) :
  older_than cutoff r = false <-> ~ (exists t, timestamp r = Some t /\ t < cutoff).
Proof.
  rewrite <- older_than_spec. destruct (older_than cutoff r); split; easy.
Qed.

(** C8: on a session with nothing pending and a storage layer that
    accepts DELETE, for every cutoff and every table, the delete
    returns a count and leaves exactly the rows whose timestamp is not
    before the cutoff (a row without timestamp stays); the count is the
    number of rows that left; run again on the result it returns 0 and
    changes nothing; and the first count is positive exactly when some
    row has a timestamp before the cutoff. *)
Theorem C8_delete_older_than_idempotent (cutoff : datetime) (c : ctx) :
  pending c = [] -> failing (wd c) DELETE = false ->
  exists n c1,
    delete_older_than cutoff c = (Ok n, c1)
    /\ (forall k r, txn c1 !! k = Some r <->
                    txn c !! k = Some r
                    /\ ~ (exists t, timestamp r = Some t /\ t < cutoff))
    /\ (n + size (txn c1) = size (txn c))%nat
    /\ delete_older_than cutoff c1 = (Ok 0%nat, c1)
    /\ ((0 < n)%nat <->
        exists k r t, txn c !! k = Some r /\ timestamp r = Some t /\ t < cutoff).
Proof.
  intros Hp Hf. eexists _, _. split; [apply (delete_older_than_run _ _ Hp Hf)|].
  simpl. split; [|split; [apply matching_remaining_size|split; [|split]]].
  - intros k r. rewrite lookup_remaining, not_older_than_spec. reflexivity.
  - rewrite delete_older_than_run by (simpl; auto). simpl.
    rewrite matching_remaining, remaining_idem, map_size_empty. reflexivity.
  - intros Hn.
    destruct (map_choose (matching cutoff (txn c))) as (k & r & Hk).
    { intros He. rewrite He, map_size_empty in Hn. lia. }
    apply lookup_matching in Hk as [Hk Ho].
    apply older_than_spec in Ho as (t & Ht & Hlt). eauto 6.
  - intros (k & r & t & Hk & Ht & Hlt).
    apply (matching_nonempty _ _ _ _ Hk). apply older_than_spec. eauto.
Qed.

Lemma C8_witness :
  exists n c1,
    delete_older_than week_before_t0 (mkCtx world_with_old_row old_table [])
    = (Ok n, c1)
    /\ (forall k r, txn c1 !! k = Some r <->
                    old_table !! k = Some r
                    /\ ~ (exists t, timestamp r = Some t /\ t < week_before_t0))
    /\ (n + size (txn c1) = size old_table)%nat
    /\ delete_older_than week_before_t0 c1 = (Ok 0%nat, c1)
    /\ ((0 < n)%nat <->
        exists k r t, old_table !! k = Some r /\ timestamp r = Some t
                      /\ t < week_before_t0).
Proof.
  apply (C8_delete_older_than_idempotent week_before_t0
           (mkCtx world_with_old_row old_table [])); reflexivity.
Defined.

Example delete_older_than_counts :
  (delete_older_than week_before_t0
     (mkCtx world_with_old_row old_table [])).1 = Ok 1%nat.
Proof. vm_compute. reflexivity. Qed.

(** ** What the session leaves alone *)

Lemma same_store_refl (c : ctx) : same_store c c.
Proof. unfold same_store. auto. Qed.

Lemma same_store_trans (c1 c2 c3 : ctx) :
  same_store c1 c2 -> same_store c2 c3 -> same_store c1 c3.
Proof. unfold same_store. intros (?&?&?&?) (?&?&?&?). repeat split; congruence. Qed.

Lemma keeps_ret {A} (a : A) : keeps_store (mret a).
Proof. intros c. apply same_store_refl. Qed.

Lemma keeps_lift {A} (r : result A) : keeps_store (lift r).
Proof. intros c. apply same_store_refl. Qed.

Lemma keeps_bind {A B} (m : M A) (k : A -> M B) :
  keeps_store m -> (forall a, keeps_store (k a)) -> keeps_store (m ≫= k).
Proof.
  intros Hm Hk c. unfold mbind, M_bind. specialize (Hm c).
  destruct (m c) as [[e|a] c1]; simpl in *; [exact Hm|].
  apply (same_store_trans _ _ _ Hm (Hk a c1)).
Qed.

Lemma keeps_datetime_now : keeps_store datetime_now.
Proof. intros c. unfold same_store. simpl. auto. Qed.

Lemma keeps_execute (s : stmt) : keeps_store (execute s).
Proof. intros c. unfold execute. destruct (failing _ _); apply same_store_refl. Qed.

Lemma keeps_get_txn : keeps_store get_txn.
Proof. intros c. apply same_store_refl. Qed.

Lemma keeps_set_txn (t : gmap Z SensorData) : keeps_store (set_txn t).
Proof. intros c. unfold same_store. simpl. auto. Qed.

Lemma keeps_session_add (o : instance) : keeps_store (session_add o).
Proof. intros c. unfold same_store. simpl. auto. Qed.

Lemma keeps_new_rowid : keeps_store new_rowid.
Proof.
  intros c. unfold new_rowid.
  destruct (max_id (txn c)) as [m|]; [|apply same_store_refl].
  destruct (m <? max_rowid); [apply same_store_refl|].
  destruct (spare_rowid (wd c)) as [i|]; [|apply same_store_refl].
  destruct (_ && _); apply same_store_refl.
Qed.

Create HintDb keeps.
#[local] Hint Resolve keeps_ret keeps_lift keeps_datetime_now keeps_execute
  keeps_get_txn keeps_set_txn keeps_session_add keeps_new_rowid : keeps.

Ltac keeps := repeat (first [apply keeps_bind; [|intros ?] | solve [auto with keeps]]).

Lemma keeps_timestamp_value (o : instance) : keeps_store (timestamp_value o).
Proof.
  unfold timestamp_value.
  destruct (o !! "timestamp") as [[]|]; keeps.
Qed.

Lemma keeps_insert_row (o : instance) : keeps_store (insert_row o).
Proof. unfold insert_row. pose proof (keeps_timestamp_value o). keeps. Qed.

Lemma keeps_insert_rows (os : list instance) : keeps_store (insert_rows os).
Proof.
  induction os as [|o os IH]; simpl; [apply keeps_ret|].
  apply keeps_bind; [apply keeps_insert_row|intros _; exact IH].
Qed.

Lemma keeps_flush : keeps_store flush.
Proof.
  intros c. unfold flush.
  pose proof (keeps_insert_rows (pending c) (mkCtx (wd c) (txn c) [])) as H.
  exact H.
Qed.

(** When the storage layer fails DELETE, the range delete raises,
    whatever the flush before it did, and commits nothing. *)
Lemma delete_older_than_fails (cutoff : datetime) (c : ctx) :
  failing (wd c) DELETE = true ->
  exists e c', delete_older_than cutoff c = (Raise e, c') /\ same_store c c'.
Proof.
  intros Hf. unfold delete_older_than, mbind, M_bind.
  pose proof (keeps_flush c) as Hk.
  destruct (flush c) as [[e|[]] c1]; simpl in Hk.
  - exists e, c1. auto.
  - unfold execute. destruct Hk as (Ht & Hfl & Hc & Hs).
    rewrite Hfl, Hf. eexists _, c1. split; [reflexivity|].
    unfold same_store. auto.
Qed.

(** ** The request from line 84 on *)

(** X18: whatever new object line 84 adds, when the storage layer
    fails the DELETE of the sweep the exception reaches the handler of
    line 101: the request is answered 500 with the error body, the
    handler prints the exception, and the committed table is the one
    before the request, so the new record is not durable. *)
Theorem X18_sweep_failure_fails_the_request (o : instance) (temp hum gas : float)
    (w : world) :
  failing w DELETE = true ->
  exists e w',
    serve (try_except (store_and_answer o temp hum gas) on_exception) w
    = (Ok (error_body, 500), w')
    /\ table w' = table w
    /\ stdout w' = (stdout w ++ ["Error: " +:+ exn_str e])%list.
Proof.
  intros Hf. unfold serve, try_except, store_and_answer, cleanup_data.
  unfold mbind at 1, M_bind at 1. simpl.
  unfold mbind at 1, M_bind at 1. unfold mbind at 1, M_bind at 1. simpl.
  unfold mbind at 1, M_bind at 1.
  match goal with
  | |- context [delete_older_than ?cut ?c] =>
      destruct (delete_older_than_fails cut c Hf) as (e & c' & -> & Hs)
  end.
  destruct Hs as (Ht & _ & _ & Hs). simpl in Ht, Hs.
  exists e. eexists. simpl. split; [reflexivity|]. simpl.
  rewrite Ht, Hs. auto.
Qed.

Lemma X18_witness :
  exists e w',
    serve (try_except (store_and_answer sample_entry 26.5 75 500) on_exception)
          sweep_fault_world
    = (Ok (error_body, 500), w')
    /\ table w' = table sweep_fault_world
    /\ stdout w' = (stdout sweep_fault_world ++ ["Error: " +:+ exn_str e])%list.
Proof.
  apply (X18_sweep_failure_fails_the_request sample_entry 26.5 75 500
           sweep_fault_world).
  reflexivity.
Defined.

(** On an example: line 84 adds the new object and its INSERT goes
    through in the open transaction, the DELETE of the sweep fails, and
    the request is answered 500 with the error body; the committed
    table stays empty. *)
Example sweep_fault_run_answers_500 :
  (flush (session_add sample_entry (mkCtx sweep_fault_world ∅ [])).2).1 = Ok tt
  /\ txn sweep_fault_run.2 !! 1 = Some sample_row
  /\ sweep_fault_run.1 = Ok (error_body, 500)
  /\ table (wd sweep_fault_run.2) = ∅.
Proof. repeat split; vm_compute; reflexivity. Qed.

(** ** The retention sweep (lines 32-36) *)

(** The sweep on a session with nothing pending and a storage layer
    that accepts DELETE and COMMIT: one clock reading, the rows older
    than seven days before it leave, and the rest is committed. *)
Lemma cleanup_data_run (c : ctx) :
  pending c = [] -> failing (wd c) DELETE = false -> failing (wd c) COMMIT = false ->
  cleanup_data c
  = (Ok tt,
     mkCtx (mkWorld (remaining (clock (wd c) (ticks (wd c)) - timedelta 7 0 0) (txn c))
                    (clock (wd c)) (S (ticks (wd c))) (failing (wd c)) (fault_text (wd c)) (spare_rowid (wd c)) (stdout (wd c)))
           (remaining (clock (wd c) (ticks (wd c)) - timedelta 7 0 0) (txn c)) []).
Proof.
  intros Hp Hd Hc. unfold cleanup_data. unfold mbind at 1, M_bind at 1. simpl.
  unfold mbind at 1, M_bind at 1.
  rewrite delete_older_than_run by (simpl; assumption). simpl.
  unfold commit, mbind, M_bind. rewrite flush_nothing by reflexivity.
  unfold execute. simpl. rewrite Hc. reflexivity.
Qed.

(** The sweep deletes exactly the rows whose timestamp is before the
    cutoff, seven days before the clock reading. *)
Lemma cleanup_data_exact (w : world) (k : Z) (r : SensorData) :
  failing w DELETE = false -> failing w COMMIT = false ->
  (serve cleanup_data w).1 = Ok tt
  /\ (table (serve cleanup_data w).2 !! k = Some r <->
      table w !! k = Some r
      /\ ~ (exists t, timestamp r = Some t /\ t < clock w (ticks w) - timedelta 7 0 0)).
Proof.
  intros Hd Hc. unfold serve.
  rewrite cleanup_data_run by (simpl; auto). simpl. split; [reflexivity|].
  rewrite lookup_remaining, <- older_than_spec.
  destruct (older_than _ r); intuition congruence.
Qed.

(** C7, on the code: the world holds one row, written eight days before
    the clock's time, and the sweep alone would delete it; ingesting the
    payload with five numeric fields is answered 500 before line 87 is
    reached, and the listing still shows the old row. *)
Theorem C7_old_row_outlives_ingestion_on_the_code :
  older_than (clock world_with_old_row 0%nat - timedelta 7 0 0) old_row = true
  /\ table (serve cleanup_data world_with_old_row).2 = ∅
  /\ (serve (receive_data full_payload) world_with_old_row).1 = Ok (error_body, 500)
  /\ table (serve (receive_data full_payload) world_with_old_row).2 = old_table
  /\ (serve history (serve (receive_data full_payload) world_with_old_row).2).1
     = Ok [(1, old_row)].
Proof.
  assert (truthy full_payload = true) as Ht by (vm_compute; reflexivity).
  rewrite (receive_data_valid _ _ world_with_old_row Ht parse_data_full_payload).
  repeat split; vm_compute; reflexivity.
Qed.

(** ** Lines 84 to 99 on a well-formed object *)

Lemma bind_ok {A B} (m : M A) (k : A -> M B) (c c' : ctx) (a : A) :
  m c = (Ok a, c') -> (m ≫= k) c = k a c'.
Proof. intros H. unfold mbind, M_bind. rewrite H. reflexivity. Qed.

Lemma max_of_list (l : list Z) :
  match foldr (fun k acc => Some (from_option (Z.max k) k acc)) None l with
  | Some m => m ∈ l /\ Forall (fun k => k <= m) l
  | None => l = []
  end.
Proof.
  induction l as [|x l IH]; simpl; [reflexivity|].
  destruct (foldr _ None l) as [m|]; simpl.
  - destruct IH as [Hin Hall]. split.
    + destruct (Z.max_spec x m) as [[_ ->]|[_ ->]]; [right; exact Hin|left].
    + constructor; [lia|]. eapply Forall_impl; [exact Hall|]. simpl. lia.
  - subst l. split; [left|]. constructor; [lia|constructor].
Qed.

(** The largest id is an id of the table and bounds the others. *)
Lemma max_id_Some (t : gmap Z SensorData) (m : Z) :
  max_id t = Some m ->
  is_Some (t !! m) /\ forall k, is_Some (t !! k) -> k <= m.
Proof.
  unfold max_id. intros H. pose proof (max_of_list (map_to_list t).*1) as Hm.
  rewrite H in Hm. destruct Hm as [Hin Hall]. split.
  - apply list_elem_of_fmap in Hin as ([k r] & -> & Hin).
    apply elem_of_map_to_list in Hin. simpl. eauto.
  - intros k [r Hr]. apply elem_of_map_to_list in Hr.
    rewrite Forall_forall in Hall. apply Hall.
    apply (list_elem_of_fmap_2 fst) in Hr. exact Hr.
Qed.

Lemma max_id_None (t : gmap Z SensorData) : max_id t = None -> t = ∅.
Proof.
  unfold max_id. intros H. pose proof (max_of_list (map_to_list t).*1) as Hm.
  rewrite H in Hm. apply fmap_nil_inv in Hm. apply map_to_list_empty_iff, Hm.
Qed.

(** The id of a new row is above every id of the table. *)
Lemma next_id_fresh (t : gmap Z SensorData) (k : Z) :
  is_Some (t !! k) -> k < next_id t.
Proof.
  intros H. unfold next_id. destruct (max_id t) as [m|] eqn:Hm.
  - apply max_id_Some in Hm as [_ Hm]. specialize (Hm k H). lia.
  - apply max_id_None in Hm. subst t. destruct H as [r Hr].
    rewrite lookup_empty in Hr. discriminate.
Qed.

Lemma new_rowid_run (c : ctx) :
  ids_below_max (txn c) -> new_rowid c = (Ok (next_id (txn c)), c).
Proof.
  intros Hb. unfold new_rowid, next_id.
  destruct (max_id (txn c)) as [m|] eqn:Hm; [|reflexivity].
  apply max_id_Some in Hm as [Hm _]. specialize (Hb m Hm).
  apply Z.ltb_lt in Hb. rewrite Hb. reflexivity.
Qed.

(** The INSERT of an object whose values bind: the row enters the open
    transaction under a fresh id. *)
Lemma insert_row_run (o : instance) (r : SensorData) (c : ctx) :
  binds_to o r -> failing (wd c) INSERT = false -> ids_below_max (txn c) ->
  insert_row o c = (Ok tt, mkCtx (wd c) (<[next_id (txn c) := r]> (txn c)) (pending c)).
Proof.
  intros (H1 & H2 & H3 & H4 & H5 & ts & H6 & H7) Hf Hb. unfold insert_row.
  unfold mbind at 1, M_bind at 1, timestamp_value. rewrite H6.
  unfold mbind at 1, M_bind at 1, lift at 1. rewrite H1.
  unfold mbind at 1, M_bind at 1, lift at 1. rewrite H2.
  unfold mbind at 1, M_bind at 1, lift at 1. rewrite H3.
  unfold mbind at 1, M_bind at 1, lift at 1. rewrite H4.
  unfold mbind at 1, M_bind at 1, lift at 1. rewrite H5.
  unfold mbind at 1, M_bind at 1, lift at 1, bind_timestamp.
  unfold mbind at 1, M_bind at 1, execute. simpl. rewrite Hf.
  rewrite (bind_ok _ _ _ _ _ (new_rowid_run c Hb)).
  destruct r as [? ? ? ? ? ?]. simpl in *. subst. reflexivity.
Qed.

(** The first row by descending id is the one with the largest id. *)
Lemma head_order_by_id_desc (t : gmap Z SensorData) (k : Z) (r : SensorData) :
  t !! k = Some r -> (forall k', is_Some (t !! k') -> k' <= k) ->
  head (order_by_id_desc t) = Some (k, r).
Proof.
  intros Hk Hmax.
  pose proof (order_by_id_desc_strict t) as Hs.
  pose proof (proj2 (order_by_id_desc_lookup t k r) Hk) as Hin.
  destruct (order_by_id_desc t) as [|[k0 r0] l] eqn:Hl; [inversion Hin|].
  simpl. f_equal.
  assert (t !! k0 = Some r0) as H0.
  { apply order_by_id_desc_lookup. rewrite Hl. left. }
  apply elem_of_cons in Hin as [Heq|Hin]; [congruence|].
  apply StronglySorted_inv in Hs as [_ Hall].
  rewrite Forall_forall in Hall. specialize (Hall _ Hin). simpl in Hall.
  specialize (Hmax k0 (ex_intro _ r0 H0)). lia.
Qed.

(** The flush of one pending object whose values bind. *)
Lemma flush_one (o : instance) (r : SensorData) (c : ctx) :
  pending c = [o] -> binds_to o r -> failing (wd c) INSERT = false ->
  ids_below_max (txn c) ->
  flush c = (Ok tt, mkCtx (wd c) (<[next_id (txn c) := r]> (txn c)) []).
Proof.
  intros Hp Hb Hf Hi. unfold flush. rewrite Hp.
  change (insert_rows [o]) with (insert_row o ≫= fun _ => insert_rows []).
  rewrite (bind_ok _ _ _ _ _
             (insert_row_run o r (mkCtx (wd c) (txn c) []) Hb Hf Hi)).
  reflexivity.
Qed.

(** The range delete after a flush that went through. *)
Lemma delete_older_than_after_flush (cutoff : datetime) (c c1 : ctx) :
  flush c = (Ok tt, c1) -> failing (wd c1) DELETE = false ->
  delete_older_than cutoff c
  = (Ok (size (matching cutoff (txn c1))),
     mkCtx (wd c1) (remaining cutoff (txn c1)) (pending c1)).
Proof.
  intros Hfl Hf. unfold delete_older_than.
  rewrite (bind_ok _ _ _ _ _ Hfl).
  erewrite bind_ok by (unfold execute; rewrite Hf; reflexivity).
  reflexivity.
Qed.

(** The commit after a flush that went through. *)
Lemma commit_after_flush (c c1 : ctx) :
  flush c = (Ok tt, c1) -> failing (wd c1) COMMIT = false ->
  commit c
  = (Ok tt,
     mkCtx (mkWorld (txn c1) (clock (wd c1)) (ticks (wd c1)) (failing (wd c1))
                    (fault_text (wd c1)) (spare_rowid (wd c1)) (stdout (wd c1)))
           (txn c1) (pending c1)).
Proof.
  intros Hfl Hf. unfold commit.
  rewrite (bind_ok _ _ _ _ _ Hfl).
  erewrite bind_ok by (unfold execute; rewrite Hf; reflexivity).
  reflexivity.
Qed.

(** The sweep with one well-formed object pending: the object is
    inserted by the flush that precedes the DELETE, so it is subject to
    the sweep like any other row. *)
Lemma cleanup_data_after_add (o : instance) (r : SensorData) (w : world)
    (t : gmap Z SensorData) :
  binds_to o r -> (forall s, failing w s = false) -> ids_below_max t ->
  cleanup_data (mkCtx w t [o])
  = (Ok tt,
     mkCtx (mkWorld (remaining (clock w (ticks w) - timedelta 7 0 0)
                               (<[next_id t := r]> t))
                    (clock w) (S (ticks w)) (failing w) (fault_text w)
                    (spare_rowid w) (stdout w))
           (remaining (clock w (ticks w) - timedelta 7 0 0) (<[next_id t := r]> t))
           []).
Proof.
  intros Hb Hf Hi. unfold cleanup_data.
  erewrite bind_ok by reflexivity.
  erewrite bind_ok.
  2:{ apply delete_older_than_after_flush.
      - apply (flush_one o r); [reflexivity|exact Hb|apply Hf|exact Hi].
      - apply Hf. }
  match goal with
  | |- commit ?c = _ =>
      rewrite (commit_after_flush c c (flush_nothing c eq_refl) (Hf COMMIT))
  end.
  reflexivity.
Qed.

(** Lines 84 to 99 with a well-formed object, a storage layer that
    fails nothing and a table whose ids are below the largest one: the
    row is inserted under a fresh id, the sweep runs with the cutoff
    seven days before its clock reading, the result is committed, and
    the answer is 200 with the buzzer command. *)
Lemma store_and_answer_run (o : instance) (r : SensorData) (temp hum gas : float)
    (w : world) :
  binds_to o r -> (forall s, failing w s = false) -> ids_below_max (table w) ->
  exists b,
    check_health (VFloat temp) (VFloat hum) (VFloat gas) = Ok b
    /\ serve (store_and_answer o temp hum gas) w
       = (Ok (success_body (negb b), 200),
          mkWorld (remaining (clock w (ticks w) - timedelta 7 0 0)
                             (<[next_id (table w) := r]> (table w)))
                  (clock w) (S (ticks w)) (failing w) (fault_text w)
                  (spare_rowid w) (stdout w)).
Proof.
  intros Hb Hf Hi. eexists. split; [apply check_health_float|].
  unfold serve, store_and_answer.
  erewrite bind_ok by reflexivity.
  erewrite bind_ok by (apply (cleanup_data_after_add o r); assumption).
  erewrite bind_ok.
  2:{ apply commit_after_flush; [apply flush_nothing; reflexivity|apply Hf]. }
  erewrite bind_ok by (unfold lift; rewrite check_health_float; reflexivity).
  reflexivity.
Qed.

(** The intent of lines 84 to 99: when the new row is not older than
    the sweep's cutoff it survives the sweep, it is the latest row, and
    [/api/latest] answers from it. *)
Lemma store_and_answer_then_latest (o : instance) (r : SensorData)
    (temp hum gas : float) (w : world) (ts : datetime) :
  binds_to o r -> (forall s, failing w s = false) -> ids_below_max (table w) ->
  timestamp r = Some ts -> clock w (ticks w) - timedelta 7 0 0 <= ts ->
  table (serve (store_and_answer o temp hum gas) w).2 !! next_id (table w) = Some r
  /\ (serve get_latest (serve (store_and_answer o temp hum gas) w).2).1
     = latest_response r.
Proof.
  intros Hb Hf Hi Hts Hcut.
  destruct (store_and_answer_run o r temp hum gas w Hb Hf Hi) as (b & _ & ->).
  simpl.
  assert (remaining (clock w (ticks w) - timedelta 7 0 0)
            (<[next_id (table w) := r]> (table w)) !! next_id (table w) = Some r) as Hl.
  { apply lookup_remaining. split; [apply lookup_insert_eq|].
    unfold older_than. rewrite Hts. apply Z.ltb_ge. exact Hcut. }
  split; [exact Hl|].
  unfold serve, get_latest, query_latest. simpl.
  unfold mbind, M_bind. simpl.
  rewrite (head_order_by_id_desc _ _ _ Hl); [reflexivity|].
  intros k' [r' Hr']. apply lookup_remaining in Hr' as [Hr' _].
  destruct (decide (k' = next_id (table w))) as [->|Hne]; [lia|].
  rewrite lookup_insert_ne in Hr' by congruence.
  pose proof (next_id_fresh (table w) k' (ex_intro _ r' Hr')). lia.
Qed.

Example sample_entry_binds : binds_to sample_entry sample_row.
Proof.
  repeat split; try (vm_compute; reflexivity).
  eexists. split; vm_compute; reflexivity.
Qed.

Example store_and_answer_sample :
  (serve (store_and_answer sample_entry 26.5 75 500) world_with_old_row).1
  = Ok (success_body false, 200)
  /\ map_to_list (table (serve (store_and_answer sample_entry 26.5 75 500)
                               world_with_old_row).2)
     = [(2, sample_row)].
Proof. split; vm_compute; reflexivity. Qed.

(** * Further properties of the code *)

(** ** The classifier at its edges (lines 24-29) *)

(** X1: a temperature below 24 or above 29 decides alone: line 26
    returns false before humidity and gas are looked at, whatever they
    are, numbers or not. *)
Theorem X1_temperature_decides_alone (t : float) (hum gas : pyval) :
  flt t 24 \/ flt 29 t -> check_health (VFloat t) hum gas = Ok false.
Proof.
  unfold flt, check_health, py_or, py_lt, py_gt, rbind, Ok.
  rewrite of_Z_24, of_Z_29.
  intros [H|H]; rewrite H; [reflexivity|].
  destruct (PrimFloat.ltb t 24); reflexivity.
Qed.

Lemma X1_witness : check_health (VFloat 30) VNone (VStr "x") = Ok false.
Proof.
  apply (X1_temperature_decides_alone 30 VNone (VStr "x")).
  right. reflexivity.
Defined.

(** X2: a temperature that is not a number (a [NULL] column, a string)
    makes the classifier raise [TypeError] at its first comparison. *)
Theorem X2_classifier_rejects_non_numbers (temp hum gas : pyval) :
  is_real temp = false -> exists m, check_health temp hum gas = Raise (TypeError m).
Proof.
  intros H. unfold check_health, py_or, py_lt, rbind.
  destruct temp; try discriminate H; eexists; reflexivity.
Qed.

Lemma X2_witness : exists m, check_health VNone (VInt 75) (VInt 500) = Raise (TypeError m).
Proof.
  apply (X2_classifier_rejects_non_numbers VNone (VInt 75) (VInt 500)).
  reflexivity.
Defined.

(** X3: a NaN passes the test of its own argument, since every
    comparison with NaN is false: as a temperature it counts like 26,
    as a humidity like 75, as a gas value like 0; a reading of three
    NaNs is classified healthy, and validation lets the string "nan"
    through as a NaN. *)
Theorem X3_nan_passes_every_test :
  (forall hum gas : pyval,
      check_health (VFloat nan) hum gas = check_health (VFloat 26) hum gas)
  /\ (forall temp gas : pyval,
      check_health temp (VFloat nan) gas = check_health temp (VFloat 75) gas)
  /\ (forall temp hum : pyval,
      check_health temp hum (VFloat nan) = check_health temp hum (VFloat 0))
  /\ check_health (VFloat nan) (VFloat nan) (VFloat nan) = Ok true
  /\ field (VDict {[ "temperature" := VStr "nan" ]}) "temperature" = Ok nan.
Proof.
  repeat split; intros; vm_compute; reflexivity.
Qed.

(** ** Validation at its edges (lines 61-65) *)

(** X4: a field that is present with the value [None] (JSON null) is
    not defaulted: [float] refuses it with [TypeError]; only an absent
    key reads as 0.0; and [True] and [False] are read as 1.0 and 0.0. *)
Theorem X4_null_is_not_defaulted (d : gmap string pyval) (k : string) :
  (exists m, field (VDict (<[k := VNone]> d)) k = Raise (TypeError m))
  /\ field (VDict (delete k d)) k = Ok 0%float
  /\ (forall b : bool,
      field (VDict (<[k := VBool b]> d)) k = Ok (if b then 1 else 0)%float).
Proof.
  split; [|split].
  - rewrite (field_present _ k VNone) by apply lookup_insert_eq.
    eexists. reflexivity.
  - apply field_absent, lookup_delete_eq.
  - intros b. rewrite (field_present _ k (VBool b)) by apply lookup_insert_eq.
    reflexivity.
Qed.

(** X5: validation stops at the first field, in the order temperature,
    humidity, soil_moisture, gas_value, ldr_value, whose conversion
    raises, and raises that exception; later fields are not looked
    at. *)
Theorem X5_validation_reports_first_failure (data : pyval) (i : nat) (k : string)
    (e : exn) :
  fields !! i = Some k -> field data k = Raise e ->
  (forall j k', (j < i)%nat -> fields !! j = Some k' -> exists x, field data k' = Ok x) ->
  parse_data data = Raise e.
Proof.
  intros Hi He Hbefore. unfold parse_data, rbind.
  destruct i as [|[|[|[|[|i]]]]]; simpl in Hi; try discriminate Hi;
    injection Hi as <-.
  - rewrite He. reflexivity.
  - destruct (Hbefore 0%nat "temperature") as [? ->]; [lia|reflexivity|].
    rewrite He. reflexivity.
  - destruct (Hbefore 0%nat "temperature") as [? ->]; [lia|reflexivity|].
    destruct (Hbefore 1%nat "humidity") as [? ->]; [lia|reflexivity|].
    rewrite He. reflexivity.
  - destruct (Hbefore 0%nat "temperature") as [? ->]; [lia|reflexivity|].
    destruct (Hbefore 1%nat "humidity") as [? ->]; [lia|reflexivity|].
    destruct (Hbefore 2%nat "soil_moisture") as [? ->]; [lia|reflexivity|].
    rewrite He. reflexivity.
  - destruct (Hbefore 0%nat "temperature") as [? ->]; [lia|reflexivity|].
    destruct (Hbefore 1%nat "humidity") as [? ->]; [lia|reflexivity|].
    destruct (Hbefore 2%nat "soil_moisture") as [? ->]; [lia|reflexivity|].
    destruct (Hbefore 3%nat "gas_value") as [? ->]; [lia|reflexivity|].
    rewrite He. reflexivity.
Qed.

Lemma X5_witness :
  parse_data two_bad_fields
  = Raise (ValueError "could not convert string to float: 'abc'").
Proof.
  apply (X5_validation_reports_first_failure two_bad_fields 1%nat "humidity").
  - reflexivity.
  - vm_compute. reflexivity.
  - intros j k' Hj Hk'. destruct j as [|j]; [|lia].
    injection Hk' as <-. exists 26%float. vm_compute. reflexivity.
Defined.

(** ** The ingestion view at its edges (lines 53-103) *)

Lemma parse_data_non_dict (data : pyval) :
  is_dict data = false ->
  parse_data data
  = Raise (AttributeError ("'" +:+ type_name data +:+ "' object has no attribute 'get'")).
Proof. destruct data; try discriminate; reflexivity. Qed.

(** X6: a body that is valid JSON but not an object, and not falsy (a
    non-empty list or string, a non-zero number, [true]), passes the
    guard of line 56 and fails at line 61 on [data.get]: the request is
    answered 500, the [AttributeError] is printed, the clock is not
    read and the table is untouched. *)
Theorem X6_non_object_body (data : pyval) (w : world) :
  truthy data = true -> is_dict data = false ->
  serve (receive_data data) w
  = (Ok (error_body, 500),
     logged w 0 ("Error: '" +:+ type_name data +:+ "' object has no attribute 'get'")).
Proof.
  intros Ht Hd.
  rewrite (receive_data_invalid _ _ w Ht (parse_data_non_dict _ Hd)).
  reflexivity.
Qed.

Lemma X6_witness :
  serve (receive_data (VList [VInt 1])) world_with_old_row
  = (Ok (error_body, 500),
     logged world_with_old_row 0
            ("Error: '" +:+ type_name (VList [VInt 1])
             +:+ "' object has no attribute 'get'")).
Proof.
  apply (X6_non_object_body (VList [VInt 1]) world_with_old_row); reflexivity.
Defined.

(** X7: whatever the body and the world, [/api/data] answers with the
    error body, 400 when the body is falsy and 500 otherwise, never with
    success; it leaves the table, the clock and the storage layer as
    they are, and prints at most one line. *)
Theorem X7_ingestion_never_succeeds (data : pyval) (w : world) :
  exists w',
    serve (receive_data data) w
    = (Ok (error_body, if truthy data then 500 else 400), w')
    /\ table w' = table w
    /\ clock w' = clock w
    /\ failing w' = failing w
    /\ (stdout w' = stdout w \/ exists line, stdout w' = (stdout w ++ [line])%list).
Proof.
  destruct (truthy data) eqn:Ht.
  - destruct (parse_data data) as [e|p] eqn:Hp.
    + rewrite (receive_data_invalid _ _ w Ht Hp). eexists.
      split; [reflexivity|]. simpl. eauto 10.
    + rewrite (receive_data_valid _ _ w Ht Hp). eexists.
      split; [reflexivity|]. simpl. eauto 10.
  - rewrite (receive_data_falsy _ w Ht). eexists.
    split; [reflexivity|]. auto.
Qed.

Lemma load_name_raises (locals : gmap string pyval) (name : string) (e : exn) :
  load_name locals name = Raise e -> exists m, e = NameError m.
Proof.
  unfold load_name. destruct (locals !! name); [discriminate|].
  destruct (_ || _); [discriminate|]. intros [= <-]. eauto.
Qed.

(** X8: lines 75 to 83 build no object, whatever the local variables
    hold: reading one of the six names raises [NameError], and were
    they all bound, the constructor would refuse the keyword
    [flame_detected], which is no column of [SensorData]. *)
Theorem X8_constructor_call_always_raises (locals : gmap string pyval)
    (ist_now : datetime) :
  (exists m, new_SensorData locals ist_now = Raise (NameError m))
  \/ new_SensorData locals ist_now
     = Raise (TypeError "'flame_detected' is an invalid keyword argument for SensorData").
Proof.
  unfold new_SensorData, rbind.
  repeat match goal with
         | |- context [load_name locals ?n] =>
             let H := fresh "H" in
             destruct (load_name locals n) as [?e|?v] eqn:H;
             [apply load_name_raises in H as [? ->]; left; eauto|]
         end.
  right. reflexivity.
Qed.

(** ** The sweep as an operation (lines 32-36) *)

Lemma serve_cleanup_data (w : world) :
  failing w DELETE = false -> failing w COMMIT = false ->
  serve cleanup_data w
  = (Ok tt,
     mkWorld (remaining (clock w (ticks w) - timedelta 7 0 0) (table w))
             (clock w) (S (ticks w)) (failing w) (fault_text w) (spare_rowid w) (stdout w)).
Proof.
  intros Hd Hc. unfold serve. rewrite cleanup_data_run by (simpl; auto).
  reflexivity.
Qed.

(** X9: a sweep request on a storage layer that accepts DELETE and
    COMMIT reads the clock once and commits the table without the rows
    whose timestamp is before the reading minus seven days: every other
    row, a row with a [NULL] timestamp included, stays as it was, and no
    row appears. *)
Theorem X9_sweep_deletes_exactly_the_old_rows (w : world) :
  failing w DELETE = false -> failing w COMMIT = false ->
  exists w',
    serve cleanup_data w = (Ok tt, w')
    /\ ticks w' = S (ticks w)
    /\ (forall k r,
          table w' !! k = Some r <->
          table w !! k = Some r
          /\ ~ (exists t, timestamp r = Some t
                          /\ t < clock w (ticks w) - timedelta 7 0 0))
    /\ (forall k r, table w !! k = Some r -> timestamp r = None ->
                    table w' !! k = Some r)
    /\ (size (table w') <= size (table w))%nat.
Proof.
  intros Hd Hc. eexists. split; [apply (serve_cleanup_data w Hd Hc)|]. simpl.
  split; [reflexivity|split; [|split]].
  - intros k r. rewrite lookup_remaining, <- older_than_spec.
    destruct (older_than _ r); intuition congruence.
  - intros k r Hk Hn. apply lookup_remaining. split; [exact Hk|].
    unfold older_than. rewrite Hn. reflexivity.
  - apply map_size_filter.
Qed.

Lemma X9_witness :
  exists w',
    serve cleanup_data world_with_old_row = (Ok tt, w')
    /\ ticks w' = S (ticks world_with_old_row)
    /\ (forall k r,
          table w' !! k = Some r <->
          table world_with_old_row !! k = Some r
          /\ ~ (exists t, timestamp r = Some t
                          /\ t < clock world_with_old_row (ticks world_with_old_row)
                                 - timedelta 7 0 0))
    /\ (forall k r, table world_with_old_row !! k = Some r -> timestamp r = None ->
                    table w' !! k = Some r)
    /\ (size (table w') <= size (table world_with_old_row))%nat.
Proof.
  apply (X9_sweep_deletes_exactly_the_old_rows world_with_old_row); reflexivity.
Defined.

Lemma older_than_max (c1 c2 : datetime) (r : SensorData) :
  older_than (Z.max c1 c2) r = false <->
  older_than c1 r = false /\ older_than c2 r = false.
Proof.
  unfold older_than. destruct (timestamp r) as [t|]; [|tauto].
  rewrite !Z.ltb_ge. lia.
Qed.

Lemma remaining_remaining (c1 c2 : datetime) (t : gmap Z SensorData) :
  remaining c2 (remaining c1 t) = remaining (Z.max c1 c2) t.
Proof.
  apply map_eq. intros k. apply option_eq. intros r.
  rewrite !lookup_remaining, older_than_max. tauto.
Qed.

(** X10: two sweep requests in a row leave the table that one sweep
    with the later of their two cutoffs leaves; when the clock did not
    advance between them, the second one changes nothing. *)
Theorem X10_two_sweeps_are_the_later_one (w : world) :
  failing w DELETE = false -> failing w COMMIT = false ->
  table (serve cleanup_data (serve cleanup_data w).2).2
  = remaining (Z.max (clock w (ticks w) - timedelta 7 0 0)
                     (clock w (S (ticks w)) - timedelta 7 0 0))
              (table w)
  /\ (clock w (S (ticks w)) <= clock w (ticks w) ->
      table (serve cleanup_data (serve cleanup_data w).2).2
      = table (serve cleanup_data w).2).
Proof.
  intros Hd Hc. rewrite (serve_cleanup_data w Hd Hc). simpl.
  rewrite serve_cleanup_data by (simpl; assumption). simpl.
  rewrite remaining_remaining. split; [reflexivity|].
  intros Hle. f_equal. lia.
Qed.

Lemma X10_witness :
  table (serve cleanup_data (serve cleanup_data world_with_old_row).2).2
  = remaining (Z.max (clock world_with_old_row (ticks world_with_old_row)
                      - timedelta 7 0 0)
                     (clock world_with_old_row (S (ticks world_with_old_row))
                      - timedelta 7 0 0))
              (table world_with_old_row)
  /\ (clock world_with_old_row (S (ticks world_with_old_row))
      <= clock world_with_old_row (ticks world_with_old_row) ->
      table (serve cleanup_data (serve cleanup_data world_with_old_row).2).2
      = table (serve cleanup_data world_with_old_row).2).
Proof.
  apply (X10_two_sweeps_are_the_later_one world_with_old_row); reflexivity.
Defined.

(** What the flush leaves of the pending list. *)

Lemma keeps_pending_bind {A B} (m : M A) (k : A -> M B) :
  keeps_pending m -> (forall a, keeps_pending (k a)) -> keeps_pending (m ≫= k).
Proof.
  intros Hm Hk c. unfold mbind, M_bind. specialize (Hm c).
  destruct (m c) as [[e|a] c1]; simpl in *; [exact Hm|].
  rewrite (Hk a c1). exact Hm.
Qed.

Lemma keeps_pending_insert_row (o : instance) : keeps_pending (insert_row o).
Proof.
  unfold insert_row, timestamp_value.
  repeat (apply keeps_pending_bind; [|intros ?]);
    try (intros c; reflexivity).
  - destruct (o !! "timestamp") as [[]|];
      repeat (apply keeps_pending_bind; [|intros ?]); intros c; reflexivity.
  - intros c. unfold execute. destruct (failing _ _); reflexivity.
  - intros c. unfold new_rowid. repeat case_match; reflexivity.
Qed.

Lemma keeps_pending_insert_rows (os : list instance) : keeps_pending (insert_rows os).
Proof.
  induction os as [|o os IH]; simpl; [intros c; reflexivity|].
  apply keeps_pending_bind; [apply keeps_pending_insert_row|intros _; exact IH].
Qed.

Lemma flush_pending (c : ctx) : pending (flush c).2 = [].
Proof. unfold flush. rewrite keeps_pending_insert_rows. reflexivity. Qed.

(** A commit that returns leaves nothing pending, a committed table that
    is the transaction's, and a storage layer that accepts COMMIT. *)
Lemma commit_Ok (c c' : ctx) :
  commit c = (Ok tt, c') ->
  pending c' = [] /\ table (wd c') = txn c' /\ failing (wd c') COMMIT = false.
Proof.
  unfold commit, mbind, M_bind. pose proof (flush_pending c) as Hp.
  destruct (flush c) as [[e|[]] c1]; [discriminate|]. simpl in Hp.
  unfold execute. destruct (failing (wd c1) COMMIT) eqn:Hf; [discriminate|].
  unfold publish. intros [= <-]. simpl. auto.
Qed.

Lemma cleanup_data_Ok (c c' : ctx) :
  cleanup_data c = (Ok tt, c') ->
  pending c' = [] /\ table (wd c') = txn c' /\ failing (wd c') COMMIT = false.
Proof.
  unfold cleanup_data. unfold mbind at 1, M_bind at 1. simpl.
  unfold mbind at 1, M_bind at 1.
  destruct (delete_older_than _ _) as [[e|n] c1]; [discriminate|].
  apply commit_Ok.
Qed.

Lemma commit_after_cleanup_data (c c1 : ctx) :
  cleanup_data c = (Ok tt, c1) -> commit c1 = (Ok tt, c1).
Proof.
  intros H. apply cleanup_data_Ok in H as (Hp & Ht & Hf).
  unfold commit. rewrite (bind_ok _ _ _ _ _ (flush_nothing c1 Hp)).
  erewrite bind_ok by (unfold execute; rewrite Hf; reflexivity).
  unfold publish. destruct c1 as [[] ? ?]. simpl in *. subst. reflexivity.
Qed.

(** X11: when the sweep returns, whatever the session held is already
    committed, the object added at line 84 included: the commit of line
    89 that follows finds nothing to flush, and the committed table and
    the transaction are after it what the sweep left. *)
Theorem X11_second_commit_changes_nothing (c c1 c2 : ctx) (r : result unit) :
  cleanup_data c = (Ok tt, c1) -> commit c1 = (r, c2) ->
  pending c1 = [] /\ table (wd c1) = txn c1
  /\ table (wd c2) = table (wd c1) /\ txn c2 = txn c1.
Proof.
  intros H Hc. rewrite (commit_after_cleanup_data _ _ H) in Hc.
  injection Hc as <- <-. apply cleanup_data_Ok in H as (Hp & Ht & _). auto.
Qed.

Lemma X11_witness :
  pending (cleanup_data ctx_after_add).2 = []
  /\ table (wd (cleanup_data ctx_after_add).2) = txn (cleanup_data ctx_after_add).2
  /\ table (wd (commit (cleanup_data ctx_after_add).2).2)
     = table (wd (cleanup_data ctx_after_add).2)
  /\ txn (commit (cleanup_data ctx_after_add).2).2 = txn (cleanup_data ctx_after_add).2.
Proof.
  apply (X11_second_commit_changes_nothing ctx_after_add
           (cleanup_data ctx_after_add).2
           (commit (cleanup_data ctx_after_add).2).2
           (commit (cleanup_data ctx_after_add).2).1).
  - vm_compute. reflexivity.
  - apply surjective_pairing.
Defined.

Example sweep_commits_the_new_row :
  table (wd (cleanup_data ctx_after_add).2) = {[ 1 := sample_row ]}.
Proof. vm_compute. reflexivity. Qed.

(** ** Lines 84 to 103 under storage failures *)

Lemma bind_Ok_inv {A B} (m : M A) (k : A -> M B) (c c' : ctx) (b : B) :
  (m ≫= k) c = (Ok b, c') -> exists a c1, m c = (Ok a, c1) /\ k a c1 = (Ok b, c').
Proof.
  unfold mbind, M_bind. destruct (m c) as [[e|a] c1]; [discriminate|]. eauto.
Qed.

Lemma keeps_delete_older_than (cutoff : datetime) : keeps_store (delete_older_than cutoff).
Proof. unfold delete_older_than. pose proof keeps_flush. keeps. Qed.

(** An INSERT that the storage layer fails raises, whatever the object. *)
Lemma insert_row_fails (o : instance) (c : ctx) :
  failing (wd c) INSERT = true ->
  exists e c', insert_row o c = (Raise e, c') /\ same_store c c'.
Proof.
  intros Hf. pose proof (keeps_insert_row o c) as Hk.
  destruct (insert_row o c) as [[e|[]] c'] eqn:H; [eauto|exfalso].
  unfold insert_row in H.
  apply bind_Ok_inv in H as (ts & c1 & Hts & H).
  pose proof (keeps_timestamp_value o c) as Hs. rewrite Hts in Hs.
  destruct Hs as (_ & Hfl & _). simpl in Hfl.
  do 6 (apply bind_Ok_inv in H as (? & ? & [= _ <-] & H)).
  apply bind_Ok_inv in H as (? & ? & He & _).
  unfold execute in He. rewrite Hfl, Hf in He. discriminate.
Qed.

Lemma flush_fails (c : ctx) :
  failing (wd c) INSERT = true -> pending c <> [] ->
  exists e c', flush c = (Raise e, c') /\ same_store c c'.
Proof.
  intros Hf Hp. unfold flush. destruct (pending c) as [|o os]; [congruence|].
  simpl. unfold mbind, M_bind.
  destruct (insert_row_fails o (mkCtx (wd c) (txn c) []) Hf) as (e & c' & -> & Hs).
  exists e, c'. split; [reflexivity|exact Hs].
Qed.

Lemma commit_fails (c : ctx) :
  failing (wd c) COMMIT = true ->
  exists e c', commit c = (Raise e, c') /\ same_store c c'.
Proof.
  intros Hf. unfold commit, mbind, M_bind.
  pose proof (keeps_flush c) as Hk.
  destruct (flush c) as [[e|[]] c1]; simpl in Hk.
  - exists e, c1. auto.
  - unfold execute. destruct Hk as (Ht & Hfl & Hc & Hs).
    rewrite Hfl, Hf. eexists _, c1. split; [reflexivity|].
    unfold same_store. auto.
Qed.

(** The sweep raises, and commits nothing, when the storage layer fails
    the INSERT of a pending object, the DELETE or the COMMIT. *)
Lemma cleanup_data_fails (c : ctx) :
  (failing (wd c) INSERT = true /\ pending c <> [])
  \/ failing (wd c) DELETE = true \/ failing (wd c) COMMIT = true ->
  exists e c', cleanup_data c = (Raise e, c') /\ same_store c c'.
Proof.
  intros H. unfold cleanup_data. unfold mbind at 1, M_bind at 1. simpl.
  unfold mbind at 1, M_bind at 1.
  match goal with
  | |- context [delete_older_than ?cut ?c0] =>
      pose proof (keeps_delete_older_than cut c0) as Hk;
      assert (same_store c c0) as H0 by (unfold same_store; simpl; auto);
      destruct (delete_older_than cut c0) as [[e|n] c1] eqn:Hd
  end; simpl in Hk.
  { exists e, c1. split; [reflexivity|]. apply (same_store_trans _ _ _ H0 Hk). }
  destruct H as [[Hi Hp]|[Hdel|Hc]].
  - exfalso. unfold delete_older_than in Hd.
    apply bind_Ok_inv in Hd as (? & ? & Hfl & _).
    match type of Hfl with
    | flush ?c0 = _ =>
        destruct (flush_fails c0) as (? & ? & Hr & _); [exact Hi|exact Hp|]
    end.
    rewrite Hr in Hfl. discriminate.
  - exfalso.
    match type of Hd with
    | delete_older_than ?cut ?c0 = _ =>
        destruct (delete_older_than_fails cut c0 Hdel) as (? & ? & Hr & _)
    end.
    rewrite Hr in Hd. discriminate.
  - destruct (commit_fails c1) as (e & c' & -> & Hs).
    { destruct Hk as (_ & -> & _). exact Hc. }
    exists e, c'. split; [reflexivity|].
    apply (same_store_trans _ _ _ H0 (same_store_trans _ _ _ Hk Hs)).
Qed.

(** Lines 84 to 103 when the sweep raises: the handler prints the
    exception and answers 500. *)
Lemma store_and_answer_sweep_raises (o : instance) (temp hum gas : float)
    (c c' : ctx) (e : exn) :
  cleanup_data (session_add o c).2 = (Raise e, c') ->
  try_except (store_and_answer o temp hum gas) on_exception c
  = (Ok (error_body, 500), (print ("Error: " +:+ exn_str e) c').2).
Proof.
  intros H. unfold try_except, store_and_answer.
  unfold mbind at 1, M_bind at 1. simpl in *.
  unfold mbind at 1, M_bind at 1. rewrite H. reflexivity.
Qed.

(** X12: whatever object line 84 adds, when the storage layer fails its
    INSERT or fails COMMIT, the request is answered 500 with the error
    body, the handler prints the exception, and the committed table is
    the one before the request. *)
Theorem X12_storage_failure_fails_the_request (o : instance) (temp hum gas : float)
    (w : world) :
  failing w INSERT = true \/ failing w COMMIT = true ->
  exists e w',
    serve (try_except (store_and_answer o temp hum gas) on_exception) w
    = (Ok (error_body, 500), w')
    /\ table w' = table w
    /\ stdout w' = (stdout w ++ ["Error: " +:+ exn_str e])%list.
Proof.
  intros H.
  destruct (cleanup_data_fails (session_add o (mkCtx w (table w) [])).2)
    as (e & c' & Hr & Hs).
  { simpl. destruct H as [H|H]; [left; split; [exact H|discriminate]|auto]. }
  exists e. unfold serve.
  rewrite (store_and_answer_sweep_raises o temp hum gas _ _ _ Hr).
  eexists. split; [reflexivity|]. simpl.
  destruct Hs as (Ht & _ & _ & Hso). simpl in Ht, Hso. rewrite Ht, Hso. auto.
Qed.

Lemma X12_witness :
  exists e w',
    serve (try_except (store_and_answer sample_entry 26.5 75 500) on_exception)
          commit_fault_world
    = (Ok (error_body, 500), w')
    /\ table w' = table commit_fault_world
    /\ stdout w' = (stdout commit_fault_world ++ ["Error: " +:+ exn_str e])%list.
Proof.
  apply (X12_storage_failure_fails_the_request sample_entry 26.5 75 500
           commit_fault_world).
  right. reflexivity.
Defined.

Example commit_fault_keeps_the_old_row :
  table (serve (try_except (store_and_answer sample_entry 26.5 75 500) on_exception)
               commit_fault_world).2 = old_table.
Proof. vm_compute. reflexivity. Qed.

(** ** Lines 84 to 99 and the read path together *)

Lemma well_formed_entry_binds (temp hum soil gas ldr : float) (ts : datetime) :
  binds_to (well_formed_entry temp hum soil gas ldr ts)
           (stored_row temp hum soil gas ldr ts).
Proof.
  repeat split; try reflexivity.
  exists ts. split; reflexivity.
Qed.

Lemma next_id_empty : next_id ∅ = 1.
Proof. reflexivity. Qed.

Lemma next_id_max (t : gmap Z SensorData) (k : Z) :
  is_Some (t !! k) -> (forall k', is_Some (t !! k') -> k' <= k) ->
  next_id t = k + 1.
Proof.
  intros Hk Hmax. unfold next_id. destruct (max_id t) as [m|] eqn:Hm.
  - apply max_id_Some in Hm as [Hm Hle].
    specialize (Hle k Hk). specialize (Hmax m Hm). lia.
  - apply max_id_None in Hm. subst t. destruct Hk as [r Hr].
    rewrite lookup_empty in Hr. discriminate.
Qed.

(** A float that equals zero is not NaN. *)
Lemma eqb_zero_not_nan (f : float) :
  PrimFloat.eqb f 0 = true -> PrimFloat.is_nan f = false.
Proof.
  unfold PrimFloat.is_nan. rewrite !FloatAxioms.eqb_spec.
  change (Prim2SF 0) with (S754_zero false).
  destruct (Prim2SF f) as [s|s| |s m e];
    try discriminate; try (destruct s; discriminate).
  reflexivity.
Qed.

(** What SQLite keeps of a float, case by case. *)
Lemma sql_real_spec (f : float) :
  (PrimFloat.is_nan f = true -> sql_real f = None)
  /\ (PrimFloat.eqb f 0 = true -> sql_real f = Some 0%float)
  /\ (PrimFloat.is_nan f = false -> PrimFloat.eqb f 0 = false -> sql_real f = Some f).
Proof.
  unfold sql_real. split; [|split].
  - intros ->. reflexivity.
  - intros H. rewrite (eqb_zero_not_nan f H), H. reflexivity.
  - intros -> ->. reflexivity.
Qed.

(** X13: lines 84 to 99, given the object with the five floats and a
    datetime, a storage layer that fails nothing and a table whose ids
    are below the largest id there is, answer 200 with the success body
    whose buzzer is on exactly when a threshold test fails on
    temperature, humidity and gas; they read the clock once, insert a
    row with the datetime and, for each float, [NULL] when it is NaN,
    positive zero when it equals zero, and the float itself otherwise;
    the id of the row is 1 in an empty table and otherwise one more
    than the largest id, so above every id of the table; they then keep
    exactly the rows whose timestamp is not before the cutoff, seven
    days before the clock reading, and commit the result. *)
Theorem X13_store_and_answer_on_a_well_formed_object
    (temp hum soil gas ldr : float) (ts : datetime) (w : world) :
  (forall s, failing w s = false) ->
  (forall k, is_Some (table w !! k) -> k < 2 ^ 63 - 1) ->
  exists id row kept,
    serve (store_and_answer (well_formed_entry temp hum soil gas ldr ts) temp hum gas) w
    = (Ok (success_body (out_of_range temp hum gas), 200),
       mkWorld kept (clock w) (S (ticks w)) (failing w) (fault_text w)
               (spare_rowid w) (stdout w))
    /\ timestamp row = Some ts
    /\ (forall f v,
          (f, v) ∈ [(temp, temperature row); (hum, humidity row);
                    (soil, soil_moisture row); (gas, gas_value row);
                    (ldr, ldr_value row)] ->
          (PrimFloat.is_nan f = true -> v = None)
          /\ (PrimFloat.eqb f 0 = true -> v = Some 0%float)
          /\ (PrimFloat.is_nan f = false -> PrimFloat.eqb f 0 = false -> v = Some f))
    /\ (forall k r,
          kept !! k = Some r <->
          <[id := row]> (table w) !! k = Some r
          /\ ~ (exists t, timestamp r = Some t
                          /\ t < clock w (ticks w) - timedelta 7 0 0))
    /\ (table w = ∅ -> id = 1)
    /\ (forall k, is_Some (table w !! k) -> k < id)
    /\ (forall k, is_Some (table w !! k) ->
                  (forall k', is_Some (table w !! k') -> k' <= k) -> id = k + 1).
Proof.
  intros Hf Hi.
  exists (next_id (table w)), (stored_row temp hum soil gas ldr ts).
  eexists. split; [|split; [reflexivity|split; [|split; [|split; [|split]]]]].
  - destruct (store_and_answer_run _ _ temp hum gas w
                (well_formed_entry_binds temp hum soil gas ldr ts) Hf Hi)
      as (b & Hb & ->).
    rewrite check_health_float in Hb. injection Hb as <-.
    rewrite negb_involutive. reflexivity.
  - intros f v Hin. simpl in Hin.
    repeat (apply elem_of_cons in Hin as [[= -> ->]|Hin]; [apply sql_real_spec|]).
    inversion Hin.
  - intros k r. rewrite lookup_remaining, not_older_than_spec. reflexivity.
  - intros ->. apply next_id_empty.
  - apply next_id_fresh.
  - apply next_id_max.
Qed.

Lemma X13_witness :
  exists id row kept,
    serve (store_and_answer (well_formed_entry 30 75 40 500 300 t0) 30 75 500)
          world_with_old_row
    = (Ok (success_body (out_of_range 30 75 500), 200),
       mkWorld kept (clock world_with_old_row) (S (ticks world_with_old_row))
               (failing world_with_old_row) (fault_text world_with_old_row)
               (spare_rowid world_with_old_row) (stdout world_with_old_row))
    /\ timestamp row = Some t0
    /\ (forall f v,
          (f, v) ∈ [(30%float, temperature row); (75%float, humidity row);
                    (40%float, soil_moisture row); (500%float, gas_value row);
                    (300%float, ldr_value row)] ->
          (PrimFloat.is_nan f = true -> v = None)
          /\ (PrimFloat.eqb f 0 = true -> v = Some 0%float)
          /\ (PrimFloat.is_nan f = false -> PrimFloat.eqb f 0 = false -> v = Some f))
    /\ (forall k r,
          kept !! k = Some r <->
          <[id := row]> (table world_with_old_row) !! k = Some r
          /\ ~ (exists t, timestamp r = Some t
                          /\ t < clock world_with_old_row (ticks world_with_old_row)
                                 - timedelta 7 0 0))
    /\ (table world_with_old_row = ∅ -> id = 1)
    /\ (forall k, is_Some (table world_with_old_row !! k) -> k < id)
    /\ (forall k, is_Some (table world_with_old_row !! k) ->
                  (forall k', is_Some (table world_with_old_row !! k') -> k' <= k) ->
                  id = k + 1).
Proof.
  apply (X13_store_and_answer_on_a_well_formed_object 30 75 40 500 300 t0
           world_with_old_row).
  - intros s. reflexivity.
  - intros k [r Hr]. simpl in Hr. unfold old_table in Hr.
    apply lookup_singleton_Some in Hr as [<- _]. reflexivity.
Defined.

Example store_and_answer_replaces_the_old_row :
  map_to_list
    (table (serve (store_and_answer (well_formed_entry nan neg_zero 40 500 300 t0)
                                    nan neg_zero 500) world_with_old_row).2)
  = [(2, mkSensorData None (Some 0%float) (Some 40%float) (Some 500%float)
                      (Some 300%float) (Some t0))].
Proof. vm_compute. reflexivity. Qed.

Example stored_nan_is_null :
  sql_real nan = None /\ sql_real neg_zero = Some 0%float
  /\ sql_real 26.5 = Some 26.5%float /\ sql_real infinity = Some infinity.
Proof. repeat split. Qed.

Example next_id_after_negative_ids :
  next_id {[ -5 := old_row ]} = -4.
Proof. vm_compute. reflexivity. Qed.

Lemma serve_get_latest (w : world) :
  serve get_latest w
  = (match head (order_by_id_desc (table w)) with
     | None => Ok ([("message", VStr "No data")], 200)
     | Some (_, latest) => latest_response latest
     end, w).
Proof.
  destruct w. unfold serve, get_latest, query_latest, mbind, M_bind. simpl.
  destruct (head _) as [[k r]|]; reflexivity.
Qed.

(** A float that equals zero compares like zero. *)
Lemma ltb_zero (f c : float) :
  PrimFloat.eqb f 0 = true ->
  PrimFloat.ltb f c = PrimFloat.ltb 0 c /\ PrimFloat.ltb c f = PrimFloat.ltb c 0.
Proof.
  rewrite FloatAxioms.eqb_spec, !FloatAxioms.ltb_spec.
  change (Prim2SF 0) with (S754_zero false).
  destruct (Prim2SF f) as [s|s| |s m e];
    try discriminate; try (destruct s; discriminate).
  intros _. destruct (Prim2SF c) as [s'|s'| |s' m' e']; split; reflexivity.
Qed.

(** The threshold tests give the same on the stored value of a float
    that is not NaN as on the float. *)
Lemma py_lt_sql_real (f : float) (n : Z) :
  PrimFloat.is_nan f = false ->
  py_lt (attr_float (sql_real f)) n = py_lt (VFloat f) n.
Proof.
  intros Hn. unfold sql_real. rewrite Hn.
  destruct (PrimFloat.eqb f 0) eqn:Hz; [|reflexivity].
  simpl. f_equal. symmetry. apply (ltb_zero f _ Hz).
Qed.

Lemma py_gt_sql_real (f : float) (n : Z) :
  PrimFloat.is_nan f = false ->
  py_gt (attr_float (sql_real f)) n = py_gt (VFloat f) n.
Proof.
  intros Hn. unfold sql_real. rewrite Hn.
  destruct (PrimFloat.eqb f 0) eqn:Hz; [|reflexivity].
  simpl. f_equal. symmetry. apply (ltb_zero f _ Hz).
Qed.

Lemma latest_response_stored (temp hum soil gas ldr : float) (ts : datetime) :
  PrimFloat.is_nan temp = false -> PrimFloat.is_nan hum = false ->
  PrimFloat.is_nan gas = false ->
  latest_response (stored_row temp hum soil gas ldr ts)
  = Ok (stored_body temp hum soil gas ldr ts, 200).
Proof.
  intros Ht Hh Hg. unfold latest_response, stored_row. simpl.
  unfold check_health.
  rewrite !py_lt_sql_real, !py_gt_sql_real by assumption.
  fold (check_health (VFloat temp) (VFloat hum) (VFloat gas)).
  rewrite check_health_float. reflexivity.
Qed.

Lemma latest_response_null_temperature (hum soil gas ldr : float) (ts : datetime) :
  exists msg,
    latest_response (stored_row nan hum soil gas ldr ts) = Raise (TypeError msg).
Proof. eexists. reflexivity. Qed.

(** What [/api/latest] shows of a stored float, case by case. *)
Lemma attr_float_sql_real (f : float) :
  (PrimFloat.is_nan f = true -> attr_float (sql_real f) = VNone)
  /\ (PrimFloat.eqb f 0 = true -> attr_float (sql_real f) = VFloat 0)
  /\ (PrimFloat.is_nan f = false -> PrimFloat.eqb f 0 = false ->
      attr_float (sql_real f) = VFloat f).
Proof.
  destruct (sql_real_spec f) as (H1 & H2 & H3). split; [|split].
  - intros H. rewrite (H1 H). reflexivity.
  - intros H. rewrite (H2 H). reflexivity.
  - intros Hn Hz. rewrite (H3 Hn Hz). reflexivity.
Qed.

(** X14: after lines 84 to 99 have stored the five floats with a
    timestamp that is not before the sweep's cutoff, [/api/latest]
    changes nothing and answers from the stored row.  When temperature,
    humidity and gas are not NaN the answer is 200 with, for each of
    the five floats, [null] when it is NaN, positive zero when it
    equals zero and the float itself otherwise, with the timestamp
    printed to the second and with the classification of temperature,
    humidity and gas.  When the temperature is NaN the row holds
    [NULL] for it and the classifier raises [TypeError]. *)
Theorem X14_stored_reading_is_the_latest
    (temp hum soil gas ldr : float) (ts : datetime) (w : world) :
  (forall s, failing w s = false) ->
  (forall k, is_Some (table w !! k) -> k < 2 ^ 63 - 1) ->
  clock w (ticks w) - timedelta 7 0 0 <= ts ->
  exists answer,
    serve get_latest
      (serve (store_and_answer (well_formed_entry temp hum soil gas ldr ts)
                               temp hum gas) w).2
    = (answer,
       (serve (store_and_answer (well_formed_entry temp hum soil gas ldr ts)
                                temp hum gas) w).2)
    /\ (PrimFloat.is_nan temp = false -> PrimFloat.is_nan hum = false ->
        PrimFloat.is_nan gas = false ->
        exists vt vh vs vg vl,
          answer
          = Ok ([("temperature", vt); ("humidity", vh); ("soil_moisture", vs);
                 ("gas_value", vg); ("ldr_value", vl);
                 ("timestamp", VStr (strftime ts));
                 ("is_healthy", VBool (negb (out_of_range temp hum gas)))], 200)
          /\ forall f v,
               (f, v) ∈ [(temp, vt); (hum, vh); (soil, vs); (gas, vg); (ldr, vl)] ->
               (PrimFloat.is_nan f = true -> v = VNone)
               /\ (PrimFloat.eqb f 0 = true -> v = VFloat 0)
               /\ (PrimFloat.is_nan f = false -> PrimFloat.eqb f 0 = false ->
                   v = VFloat f))
    /\ (PrimFloat.is_nan temp = true -> exists msg, answer = Raise (TypeError msg)).
Proof.
  intros Hf Hi Hts.
  pose proof (store_and_answer_then_latest _ _ temp hum gas w ts
                (well_formed_entry_binds temp hum soil gas ldr ts) Hf Hi eq_refl Hts)
    as [_ H].
  rewrite serve_get_latest in H |- *. simpl in H. rewrite H.
  eexists. split; [reflexivity|split].
  - intros Ht Hh Hg. rewrite (latest_response_stored _ _ _ _ _ _ Ht Hh Hg).
    eexists _, _, _, _, _. split; [reflexivity|].
    intros f v Hin.
    repeat (apply elem_of_cons in Hin as [[= -> ->]|Hin]; [apply attr_float_sql_real|]).
    inversion Hin.
  - intros Hn. unfold latest_response, stored_row, sql_real. simpl.
    rewrite Hn. eexists. reflexivity.
Qed.

Lemma X14_witness :
  exists answer,
    serve get_latest
      (serve (store_and_answer (well_formed_entry 30 75 40 500 300 t0) 30 75 500)
             world_with_old_row).2
    = (answer,
       (serve (store_and_answer (well_formed_entry 30 75 40 500 300 t0) 30 75 500)
              world_with_old_row).2)
    /\ (PrimFloat.is_nan 30 = false -> PrimFloat.is_nan 75 = false ->
        PrimFloat.is_nan 500 = false ->
        exists vt vh vs vg vl,
          answer
          = Ok ([("temperature", vt); ("humidity", vh); ("soil_moisture", vs);
                 ("gas_value", vg); ("ldr_value", vl);
                 ("timestamp", VStr (strftime t0));
                 ("is_healthy", VBool (negb (out_of_range 30 75 500)))], 200)
          /\ forall f v,
               (f, v) ∈ [(30%float, vt); (75%float, vh); (40%float, vs);
                         (500%float, vg); (300%float, vl)] ->
               (PrimFloat.is_nan f = true -> v = VNone)
               /\ (PrimFloat.eqb f 0 = true -> v = VFloat 0)
               /\ (PrimFloat.is_nan f = false -> PrimFloat.eqb f 0 = false ->
                   v = VFloat f))
    /\ (PrimFloat.is_nan 30 = true -> exists msg, answer = Raise (TypeError msg)).
Proof.
  apply (X14_stored_reading_is_the_latest 30 75 40 500 300 t0 world_with_old_row).
  - intros s. reflexivity.
  - intros k [r Hr]. simpl in Hr. unfold old_table in Hr.
    apply lookup_singleton_Some in Hr as [<- _]. reflexivity.
  - vm_compute. discriminate.
Defined.

Example stored_reading_on_an_example :
  (serve get_latest
     (serve (store_and_answer (well_formed_entry 26.5 75 neg_zero 500 nan t0)
                              26.5 75 500) world_with_old_row).2).1
  = Ok ([("temperature", VFloat 26.5); ("humidity", VFloat 75);
         ("soil_moisture", VFloat 0); ("gas_value", VFloat 500);
         ("ldr_value", VNone); ("timestamp", VStr "2023-11-14 22:13:20");
         ("is_healthy", VBool true)], 200).
Proof. vm_compute. reflexivity. Qed.

Example stored_nan_temperature_raises :
  (serve get_latest
     (serve (store_and_answer (well_formed_entry nan 75 40 500 300 t0) nan 75 500)
            world_with_old_row).2).1
  = Raise (TypeError "'<' not supported between instances of 'NoneType' and 'int'").
Proof. vm_compute. reflexivity. Qed.

(** ** The read path (lines 47-51 and 105-122) *)

Lemma length_order_by_id_desc (t : gmap Z SensorData) :
  length (order_by_id_desc t) = size t.
Proof. rewrite order_by_id_desc_perm. apply length_map_to_list. Qed.

(** X15: the listing returns the 100 rows with the largest ids: its
    length is the smaller of 100 and the number of rows, every row of
    the table that it leaves out has an id below every id it shows, and
    a table of at most 100 rows is listed whole. *)
Theorem X15_history_lists_the_newest (w : world) :
  exists rows,
    serve history w = (Ok rows, w)
    /\ length rows = min 100 (size (table w))
    /\ (forall k r k' r',
          (k, r) ∈ rows -> table w !! k' = Some r' -> (k', r') ∉ rows -> k' < k)
    /\ ((size (table w) <= 100)%nat ->
        forall k r, table w !! k = Some r -> (k, r) ∈ rows).
Proof.
  exists (take 100 (order_by_id_desc (table w))).
  split; [apply serve_history|split; [|split]].
  - rewrite length_take, length_order_by_id_desc. reflexivity.
  - intros k r k' r' Hin Hk' Hout.
    apply order_by_id_desc_lookup in Hk'.
    rewrite <- (take_drop 100 (order_by_id_desc (table w))) in Hk'.
    apply elem_of_app in Hk' as [Hk'|Hk']; [contradiction|].
    pose proof (order_by_id_desc_strict (table w)) as Hs.
    rewrite <- (take_drop 100 (order_by_id_desc (table w))) in Hs.
    apply (StronglySorted_app_1_elem_of _ _ _ _ _ Hs Hin Hk').
  - intros Hsz k r Hk. rewrite take_ge by (rewrite length_order_by_id_desc; lia).
    apply order_by_id_desc_lookup. exact Hk.
Qed.

(** X16: [/api/latest] changes nothing; on an empty table it answers
    200 with the no-data body; otherwise it answers from the row with
    the largest id, which is the first row of the listing. *)
Theorem X16_latest_answers_from_the_largest_id (w : world) :
  (table w = ∅
   /\ serve get_latest w = (Ok ([("message", VStr "No data")], 200), w))
  \/ (exists k r rows,
        table w !! k = Some r
        /\ (forall k', is_Some (table w !! k') -> k' <= k)
        /\ serve get_latest w = (latest_response r, w)
        /\ serve history w = (Ok rows, w)
        /\ head rows = Some (k, r)).
Proof.
  rewrite serve_get_latest, serve_history.
  pose proof (order_by_id_desc_strict (table w)) as Hs.
  pose proof (order_by_id_desc_lookup (table w)) as Hl.
  pose proof (order_by_id_desc_perm (table w)) as Hp.
  destruct (order_by_id_desc (table w)) as [|[k r] l].
  - left. split; [|reflexivity].
    apply map_to_list_empty_iff. symmetry in Hp.
    apply Permutation_nil_r in Hp. exact Hp.
  - right. exists k, r. eexists. split; [apply Hl; left|].
    split; [|split; [reflexivity|split; reflexivity]].
    intros k' [r' Hr']. apply Hl in Hr'.
    apply elem_of_cons in Hr' as [[= -> ->]|Hin]; [lia|].
    apply StronglySorted_inv in Hs as [_ Hall].
    rewrite Forall_forall in Hall. specialize (Hall _ Hin). simpl in Hall. lia.
Qed.

(** X17: [/api/latest] does not answer from a row whose temperature or
    timestamp is [NULL]: the classifier raises [TypeError] on the
    missing temperature, and line 120 raises [AttributeError] on the
    missing timestamp; the view has no handler. *)
Theorem X17_latest_raises_on_null_columns (r : SensorData) :
  temperature r = None \/ timestamp r = None ->
  exists e, latest_response r = Raise e.
Proof.
  intros [H|H]; unfold latest_response, rbind.
  - rewrite H. simpl. eexists. reflexivity.
  - rewrite H. destruct (check_health _ _ _); eexists; reflexivity.
Qed.

Lemma X17_witness :
  exists e,
    latest_response (mkSensorData (Some 26%float) (Some 75%float) None None None None)
    = Raise e.
Proof.
  apply (X17_latest_raises_on_null_columns
           (mkSensorData (Some 26%float) (Some 75%float) None None None None)).
  right. reflexivity.
Defined.
